(** * FastMap: a 2D map stored in one linear JavaScript array

    Verification of the [FastMap<T>] class of the FastMap repository.  The
    repository holds four revisions of the class; each is embedded in a
    module of its own, definition by definition:

    - [Primary]   : [src/index.ts] (no validation of the dimensions, range
                    check without [Number.isInteger]);
    - [Validated] : the revision that adds [validateSize] and the
                    [Number.isInteger] checks;
    - [Memo]      : the revision with the [memoCache] in front of [Get];
    - [Unsafe]    : the revision with [GetUnsafe] / [SetUnsafe], whose
                    absent marker is [undefined].

    Numbers.  A JavaScript number is modelled by a canonical rational
    ([Qc]) and arithmetic is exact: the model covers the finite numbers
    ([NaN] and the infinities are left out) and agrees with IEEE doubles
    wherever [width * height] and [y * width + x] are exactly representable
    (in particular on all integers of magnitude below 2^53, and on the
    small dyadic fractions used in the examples).  The comparisons and
    [Number.isInteger] are exact on doubles.  A theorem that depends on
    the value of a product or of a sum therefore either restricts the
    dimensions and coordinates to integers within the array lengths, or
    carries one of the hypotheses [representable], [small_integer] and
    [product_faithful], under which the code computes what the model
    computes; a theorem that only reads back the key it wrote needs none.

    Arrays.  A JavaScript array is modelled by its indexed elements (a
    list, whose length is the array's [length]) together with its other
    numeric-keyed properties: [a[k] = v] with [k] not an array index
    creates an ordinary property and leaves [length] alone, while writing
    at an index beyond the end grows the array. *)

From Stdlib Require Import ZArith QArith Qcanon Lia String.
From stdpp Require Import base numbers option list gmap strings.

Local Open Scope Z_scope.

(** ** JavaScript numbers *)

Abbreviation number := Qc.

(** A number literal [a / b]. *)
Definition num (a : Z) (b : positive) : number := Q2Qc (a # b).

(** [Number.isInteger]: a canonical rational is an integer exactly when
    its denominator is 1. *)
Definition isInteger (n : number) : bool := Pos.eqb (Qden n) 1.

(** The integer an integral number denotes. *)
Definition toZ (n : number) : Z := Qnum n.

(** The comparison operators [<], [<=], [>], [>=] on numbers. *)
Definition ltb (a b : number) : bool := bool_decide (a < b)%Qc.
Definition leb (a b : number) : bool := bool_decide (a ≤ b)%Qc.
Definition gtb (a b : number) : bool := ltb b a.
Definition geb (a b : number) : bool := leb b a.

(** [Math.pow(2, 32) - 1], the largest array length. *)
Definition MAX_ARRAY_LENGTH : Z := 2 ^ 32 - 1.

(** ** Values, exceptions and results *)

(** What a slot read can produce: [undefined], [null] or a value of [T]. *)
Inductive jsval (T : Type) : Type :=
| undefined
| null
| val (t : T).
Arguments undefined {T}.
Arguments null {T}.
Arguments val {T} t.

(** The two classes of exception the code can raise: [Error], thrown by the
    class itself, and [RangeError], thrown by [new Array(n)]. *)
Inductive exn : Type :=
| Error (msg : string)
| RangeError (msg : string).

Inductive result (A : Type) : Type :=
| Ok (a : A)
| Throw (e : exn).
Arguments Ok {A} a.
Arguments Throw {A} e.

(** ** JavaScript arrays *)

Section JSArray.
Context {T : Type}.

(** [elems] holds the properties with keys [0 .. length - 1]; a hole reads
    as [undefined] and is stored as such.  [named] holds the properties
    whose numeric key is not an array index. *)
Record jsarray : Type := mkArray {
  elems : list (jsval T);
  named : gmap Qc (jsval T)
}.

Definition array_length (a : jsarray) : Z := Z.of_nat (length (elems a)).

(** A number is an array index when it is an integer in [0, 2^32 - 2]. *)
Definition as_index (k : number) : option nat :=
  if isInteger k && leb 0 k && ltb k (Qc_of_Z MAX_ARRAY_LENGTH)
  then Some (Z.to_nat (toZ k)) else None.

(** [new Array(n)]: [n] must be an integer in [0, 2^32 - 1]. *)
Definition array_new (n : number) : result jsarray :=
  if isInteger n && leb 0 n && leb n (Qc_of_Z MAX_ARRAY_LENGTH)
  then Ok (mkArray (replicate (Z.to_nat (toZ n)) undefined) ∅)
  else Throw (RangeError "Invalid array length").

(** [a.fill(v)]: every index below [length] receives [v]. *)
Definition array_fill (a : jsarray) (v : jsval T) : jsarray :=
  mkArray (replicate (length (elems a)) v) (named a).

(** [a[k]] *)
Definition array_get (a : jsarray) (k : number) : jsval T :=
  match as_index k with
  | Some i => default undefined (elems a !! i)
  | None => default undefined (named a !! k)
  end.

(** [a[k] = v] *)
Definition array_set (a : jsarray) (k : number) (v : jsval T) : jsarray :=
  match as_index k with
  | Some i =>
      if bool_decide (i < length (elems a))%nat
      then mkArray (<[i := v]> (elems a)) (named a)
      else mkArray (elems a ++ replicate (i - length (elems a)) undefined ++ [v])
                   (named a)
  | None => mkArray (elems a) (<[k := v]> (named a))
  end.
End JSArray.
Arguments jsarray T : clear implicits.

(** ** [src/index.ts] *)

Module Primary.
Section FastMap.
Context {T : Type}.

Record FastMap : Type := mkFastMap {
  map : jsarray T;
  width : number;
  height : number
}.

(** [constructor(width, height)].  The product is the exact one;
    [product_faithful] below says when the code's rounded product has the
    same outcome. *)
Definition constructor (w h : number) : result FastMap :=
  match array_new (w * h)%Qc with
  | Ok a => Ok (mkFastMap (array_fill a null) w h)
  | Throw e => Throw e
  end.

(** The index is the exact one: it is the code's whenever [y * width] and
    [y * width + x] are [representable], as on integers within the array
    lengths. *)
Definition Convert2DTo1D (this : FastMap) (x y : number) : number :=
  (y * width this + x)%Qc.

Definition CheckIndicesAreValid (this : FastMap) (x y : number) : bool :=
  geb x 0 && ltb x (width this) && geb y 0 && ltb y (height this).

(** [Get(x, y)]: the result together with the state after the call. *)
Definition Get (this : FastMap) (x y : number) : result (jsval T) * FastMap :=
  if negb (CheckIndicesAreValid this x y)
  then (Throw (Error "Index out of bounds"), this)
  else (Ok (array_get (map this) (Convert2DTo1D this x y)), this).

(** [Set(x, y, value)] *)
Definition Set_ (this : FastMap) (x y : number) (value : jsval T)
  : result unit * FastMap :=
  if negb (CheckIndicesAreValid this x y)
  then (Throw (Error "Index out of bounds"), this)
  else (Ok tt,
        mkFastMap (array_set (map this) (Convert2DTo1D this x y) value)
                  (width this) (height this)).

Definition Width (this : FastMap) : number := width this.
Definition Height (this : FastMap) : number := height this.
End FastMap.
Arguments FastMap T : clear implicits.
End Primary.

(** ** The revision with [validateSize] and [Number.isInteger] *)

Module Validated.
Section FastMap.
Context {T : Type}.

Record FastMap : Type := mkFastMap {
  map : jsarray T;
  width : number;
  height : number
}.

(** [validateSize(width, height)]: throws, or returns nothing. *)
Definition validateSize (w h : number) : result unit :=
  if negb (isInteger w) || negb (isInteger h)
  then Throw (Error "Width and Geight must be Integer values")
  else if leb w 0 || leb h 0
  then Throw (Error "Width and height must be greater than 0")
  else if gtb (w * h)%Qc (Qc_of_Z MAX_ARRAY_LENGTH)
  then Throw (Error "Specified dimensions are too large")
  else Ok tt.

Definition constructor (w h : number) : result FastMap :=
  match validateSize w h with
  | Throw e => Throw e
  | Ok _ =>
      match array_new (w * h)%Qc with
      | Ok a => Ok (mkFastMap (array_fill a null) w h)
      | Throw e => Throw e
      end
  end.

Definition convert2DTo1D (this : FastMap) (x y : number) : number :=
  (y * width this + x)%Qc.

Definition checkIndicesAreValid (this : FastMap) (x y : number) : bool :=
  isInteger x && isInteger y &&
  geb x 0 && ltb x (width this) && geb y 0 && ltb y (height this).

Definition Get (this : FastMap) (x y : number) : result (jsval T) * FastMap :=
  if negb (checkIndicesAreValid this x y)
  then (Throw (Error "Index out of bounds"), this)
  else (Ok (array_get (map this) (convert2DTo1D this x y)), this).

Definition Set_ (this : FastMap) (x y : number) (value : jsval T)
  : result unit * FastMap :=
  if negb (checkIndicesAreValid this x y)
  then (Throw (Error "Index out of bounds"), this)
  else (Ok tt,
        mkFastMap (array_set (map this) (convert2DTo1D this x y) value)
                  (width this) (height this)).

Definition Width (this : FastMap) : number := width this.
Definition Height (this : FastMap) : number := height this.
End FastMap.
Arguments FastMap T : clear implicits.
End Validated.

(** ** The revision with [memoCache] *)

Module Memo.
Section FastMap.
Context {T : Type}.

(** JavaScript's [ToBoolean] on the values of [T] (for instance [0] and
    the empty string are falsy). *)
Variable truthy : T -> bool.

Definition to_boolean (v : jsval T) : bool :=
  match v with
  | undefined | null => false
  | val t => truthy t
  end.

(** [a || null] *)
Definition or_null (v : jsval T) : jsval T :=
  if to_boolean v then v else null.

(** The cache is keyed by the string [`${x},${y}`]; the decimal form of a
    number holds no comma, so the key determines the pair [(x, y)] and is
    modelled by it. *)
Record FastMap : Type := mkFastMap {
  map : jsarray T;
  width : number;
  height : number;
  memoCache : gmap (Qc * Qc) (jsval T)
}.

Definition validateSize (w h : number) : result unit :=
  if negb (isInteger w) || negb (isInteger h)
  then Throw (Error "Width and Height must be Integer values")
  else if leb w 0 || leb h 0
  then Throw (Error "Width and height must be greater than 0")
  else if gtb (w * h)%Qc (Qc_of_Z MAX_ARRAY_LENGTH)
  then Throw (Error "Specified dimensions are too large")
  else Ok tt.

Definition constructor (w h : number) : result FastMap :=
  match validateSize w h with
  | Throw e => Throw e
  | Ok _ =>
      match array_new (w * h)%Qc with
      | Ok a => Ok (mkFastMap (array_fill a null) w h ∅)
      | Throw e => Throw e
      end
  end.

Definition convert2DTo1D (this : FastMap) (x y : number) : number :=
  (y * width this + x)%Qc.

Definition checkIndicesAreValid (this : FastMap) (x y : number) : bool :=
  isInteger x && isInteger y &&
  geb x 0 && ltb x (width this) && geb y 0 && ltb y (height this).

Definition Get (this : FastMap) (x y : number) : result (jsval T) * FastMap :=
  let key := (x, y) in
  match memoCache this !! key with
  | Some cached => (Ok (or_null cached), this)
  | None =>
      if negb (checkIndicesAreValid this x y)
      then (Throw (Error "Index out of bounds"), this)
      else
        let value := array_get (map this) (convert2DTo1D this x y) in
        (Ok value,
         mkFastMap (map this) (width this) (height this)
                   (<[key := value]> (memoCache this)))
  end.

Definition Set_ (this : FastMap) (x y : number) (value : jsval T)
  : result unit * FastMap :=
  if negb (checkIndicesAreValid this x y)
  then (Throw (Error "Index out of bounds"), this)
  else (Ok tt,
        mkFastMap (array_set (map this) (convert2DTo1D this x y) value)
                  (width this) (height this)
                  (delete (x, y) (memoCache this))).

Definition Width (this : FastMap) : number := width this.
Definition Height (this : FastMap) : number := height this.
End FastMap.
Arguments FastMap T : clear implicits.
End Memo.

(** ** The revision with [GetUnsafe] and [SetUnsafe] *)

Module Unsafe.
Section FastMap.
Context {T : Type}.

Record FastMap : Type := mkFastMap {
  map : jsarray T;
  width : number;
  height : number
}.

Definition validateSize (w h : number) : result unit :=
  if negb (isInteger w) || negb (isInteger h)
  then Throw (Error "Width and Height must be Integer values")
  else if leb w 0 || leb h 0
  then Throw (Error "Width and height must be greater than 0")
  else if gtb (w * h)%Qc (Qc_of_Z MAX_ARRAY_LENGTH)
  then Throw (Error "Specified dimensions are too large")
  else Ok tt.

(** The storage is not filled: every slot starts as a hole. *)
Definition constructor (w h : number) : result FastMap :=
  match validateSize w h with
  | Throw e => Throw e
  | Ok _ =>
      match array_new (w * h)%Qc with
      | Ok a => Ok (mkFastMap a w h)
      | Throw e => Throw e
      end
  end.

Definition convert2DTo1D (this : FastMap) (x y : number) : number :=
  (y * width this + x)%Qc.

Definition checkIndicesAreValid (this : FastMap) (x y : number) : bool :=
  isInteger x && isInteger y &&
  geb x 0 && ltb x (width this) && geb y 0 && ltb y (height this).

Definition Get (this : FastMap) (x y : number) : result (jsval T) * FastMap :=
  if negb (checkIndicesAreValid this x y)
  then (Throw (Error "Index out of bounds"), this)
  else (Ok (array_get (map this) (convert2DTo1D this x y)), this).

Definition Set_ (this : FastMap) (x y : number) (value : jsval T)
  : result unit * FastMap :=
  if negb (checkIndicesAreValid this x y)
  then (Throw (Error "Index out of bounds"), this)
  else (Ok tt,
        mkFastMap (array_set (map this) (convert2DTo1D this x y) value)
                  (width this) (height this)).

(** [GetUnsafe(x, y)]: no check, the index expression written out (exact
    here, see [small_integer] below). *)
Definition GetUnsafe (this : FastMap) (x y : number)
  : result (jsval T) * FastMap :=
  (Ok (array_get (map this) (y * width this + x)%Qc), this).

(** [SetUnsafe(x, y, value)], with the exact index as well. *)
Definition SetUnsafe (this : FastMap) (x y : number) (value : jsval T)
  : result unit * FastMap :=
  (Ok tt,
   mkFastMap (array_set (map this) (y * width this + x)%Qc value)
             (width this) (height this)).

Definition Width (this : FastMap) : number := width this.
Definition Height (this : FastMap) : number := height this.
End FastMap.
Arguments FastMap T : clear implicits.
End Unsafe.

(** ** Coordinates and example grids *)

(** The valid coordinates of a [w] by [h] grid: integers with
    [0 <= x < w] and [0 <= y < h]. *)
Definition valid_coord (w h x y : number) : Prop :=
  isInteger x = true ∧ isInteger y = true ∧
  (0 ≤ x < w)%Qc ∧ (0 ≤ y < h)%Qc.

Global Instance valid_coord_dec (w h x y : number) :
  Decision (valid_coord w h x y).
Proof. unfold valid_coord. apply _. Defined.

(** The 3 by 3 grid of numbers the tests start from, as [src/index.ts]
    builds it. *)
Definition board33 : Primary.FastMap nat :=
  Primary.mkFastMap (mkArray (replicate 9 null) ∅) (Qc_of_Z 3) (Qc_of_Z 3).

(** The same grid in the revision with unchecked accessors, where the
    storage is left unfilled. *)
Definition unsafe33 : Unsafe.FastMap nat :=
  Unsafe.mkFastMap (mkArray (replicate 9 undefined) ∅) (Qc_of_Z 3) (Qc_of_Z 3).

(** A 1 by 1 grid of numbers in the revision with the cache, and
    [ToBoolean] on its values: [0] is falsy. *)
Definition memo11 : Memo.FastMap nat :=
  Memo.mkFastMap (mkArray [null] ∅) (Qc_of_Z 1) (Qc_of_Z 1) ∅.

Definition nat_truthy (n : nat) : bool := negb (Nat.eqb n 0).

(** All three validating constructors reject [(w, h)], the first revision
    with message [msg1], the two later ones with [msg2]. *)
Definition rejected_with {T : Type} (w h : number) (msg1 msg2 : string) : Prop :=
  @Validated.constructor T w h = Throw (Error msg1) ∧
  @Memo.constructor T w h = Throw (Error msg2) ∧
  @Unsafe.constructor T w h = Throw (Error msg2).

(** [storage.length == width * height] *)
Definition length_invariant {T : Type} (a : jsarray T) (w h : number) : Prop :=
  Qc_of_Z (array_length a) = (w * h)%Qc.

(** The coordinates the bounds law speaks of: outside
    [[0, w) × [0, h)], and, where integrality is checked, non-integers. *)
Definition out_of_range (w h x y : number) : Prop :=
  (x < 0)%Qc ∨ (w ≤ x)%Qc ∨ (y < 0)%Qc ∨ (h ≤ y)%Qc.

Definition invalid_coord (w h x y : number) : Prop :=
  out_of_range w h x y ∨ isInteger x = false ∨ isInteger y = false.

Global Instance out_of_range_dec (w h x y : number) :
  Decision (out_of_range w h x y).
Proof. unfold out_of_range. apply _. Defined.

Global Instance invalid_coord_dec (w h x y : number) :
  Decision (invalid_coord w h x y).
Proof. unfold invalid_coord. apply _. Defined.

(** Every key of the cache is a valid coordinate pair: this holds of a
    new grid and is kept by [Get] and [Set]. *)
Definition cache_sound {T : Type} (this : Memo.FastMap T) : Prop :=
  ∀ x y c, Memo.memoCache this !! (x, y) = Some c →
           valid_coord (Memo.width this) (Memo.height this) x y.

(** Sequences of calls on a grid of [src/index.ts] and of the validating
    revision: the state after each call is the state before the next. *)
Inductive call (T : Type) : Type :=
| CallGet (x y : number)
| CallSet (x y : number) (value : jsval T).
Arguments CallGet {T} x y.
Arguments CallSet {T} x y value.

Definition integer_call {T : Type} (c : call T) : Prop :=
  match c with
  | CallGet x y | CallSet x y _ => isInteger x = true ∧ isInteger y = true
  end.

Global Instance integer_call_dec {T : Type} (c : call T) :
  Decision (integer_call c).
Proof. destruct c; simpl; apply _. Defined.

Definition Primary_step {T : Type} (this : Primary.FastMap T) (c : call T)
  : Primary.FastMap T :=
  match c with
  | CallGet x y => snd (Primary.Get this x y)
  | CallSet x y v => snd (Primary.Set_ this x y v)
  end.

Definition Primary_run {T : Type} (this : Primary.FastMap T) (cs : list (call T))
  : Primary.FastMap T := foldl Primary_step this cs.

Definition Validated_step {T : Type} (this : Validated.FastMap T) (c : call T)
  : Validated.FastMap T :=
  match c with
  | CallGet x y => snd (Validated.Get this x y)
  | CallSet x y v => snd (Validated.Set_ this x y v)
  end.

Definition Validated_run {T : Type} (this : Validated.FastMap T)
    (cs : list (call T)) : Validated.FastMap T := foldl Validated_step this cs.

(** ** Further states and invariants *)

(** Runs of calls in the revision with the cache. *)
Definition Memo_step {T : Type} (truthy : T → bool) (this : Memo.FastMap T)
    (c : call T) : Memo.FastMap T :=
  match c with
  | CallGet x y => snd (Memo.Get truthy this x y)
  | CallSet x y v => snd (Memo.Set_ this x y v)
  end.

Definition Memo_run {T : Type} (truthy : T → bool) (this : Memo.FastMap T)
    (cs : list (call T)) : Memo.FastMap T := foldl (Memo_step truthy) this cs.

(** The cache is never stale: an entry sits under a valid coordinate pair
    and holds what the storage holds at that pair's index. *)
Definition cache_coherent {T : Type} (this : Memo.FastMap T) : Prop :=
  ∀ x y c, Memo.memoCache this !! (x, y) = Some c →
           valid_coord (Memo.width this) (Memo.height this) x y ∧
           c = array_get (Memo.map this) (Memo.convert2DTo1D this x y).

(** A call that respects the type [T | null] of [Set]'s value. *)
Definition typed_call {T : Type} (c : call T) : Prop :=
  match c with
  | CallGet _ _ => True
  | CallSet _ _ v => v ≠ undefined
  end.

(** The storage of a grid with integer dimensions: as long as
    [width * height], within the largest array length, and without a hole. *)
Definition dense {T : Type} (a : jsarray T) (w h : number) : Prop :=
  isInteger w = true ∧ isInteger h = true ∧
  length_invariant a w h ∧ array_length a ≤ MAX_ARRAY_LENGTH ∧
  Forall (λ e, e ≠ undefined) (elems a).

(** The 3 by 3 grid in the revision with [validateSize]. *)
Definition validated33 : Validated.FastMap nat :=
  Validated.mkFastMap (mkArray (replicate 9 null) ∅) (Qc_of_Z 3) (Qc_of_Z 3).

(** The value a run of calls leaves at [(x, y)] on a [w] by [h] grid: the
    one of the last [Set] that named this pair with valid coordinates, and
    [init] when there was none. *)
Fixpoint last_written {T : Type} (w h : number) (cs : list (call T))
    (x y : number) (init : jsval T) : jsval T :=
  match cs with
  | [] => init
  | CallGet _ _ :: cs => last_written w h cs x y init
  | CallSet x0 y0 v :: cs =>
      last_written w h cs x y
        (if decide (valid_coord w h x0 y0 ∧ (x0, y0) = (x, y)) then v else init)
  end.

(** ** Where the arithmetic of the model is the code's *)

(** [2^e], for an exponent of either sign. *)
Definition pow2 (e : Z) : number :=
  if 0 <=? e then Qc_of_Z (2 ^ e) else (/ Qc_of_Z (2 ^ (- e)))%Qc.

(** The finite IEEE doubles: [m * 2^e] with a mantissa below [2^53] and an
    exponent between [-1074] and [971].  An operation whose exact result is
    representable is computed exactly by the code. *)
Definition representable (q : number) : Prop :=
  ∃ m e : Z, Z.abs m < 2 ^ 53 ∧ -1074 ≤ e ≤ 971 ∧ q = (Qc_of_Z m * pow2 e)%Qc.

(** Integers of magnitude below [2^26]: sums and products of two of them
    stay below [2^53] and are exact. *)
Definition small_integer (n : number) : Prop :=
  isInteger n = true ∧ Z.abs (toZ n) < 2 ^ 26.

(** The product [width * height] the constructor hands to [new Array] is
    either exact, or a product of integers: rounding a product of integers
    keeps it an integer, on the same side of [0] and of [2^32 - 1], so
    [new Array] accepts the rounded product exactly when it would accept
    the exact one. *)
Definition product_faithful (w h : number) : Prop :=
  representable (w * h)%Qc ∨ (isInteger w = true ∧ isInteger h = true).

(** The grid [Grid(2.5, 2)] as [src/index.ts] builds it. *)
Definition wide52 : Primary.FastMap nat :=
  Primary.mkFastMap (mkArray (replicate 5 null) ∅) (num 5 2) (Qc_of_Z 2).

(** * Properties *)

(** ** Numbers *)

Lemma ltb_true (a b : number) : ltb a b = true ↔ (a < b)%Qc.
Proof. unfold ltb. apply bool_decide_eq_true. Qed.

Lemma ltb_false (a b : number) : ltb a b = false ↔ (b ≤ a)%Qc.
Proof. unfold ltb. rewrite bool_decide_eq_false. symmetry. apply Qcle_ngt. Qed.

Lemma leb_true (a b : number) : leb a b = true ↔ (a ≤ b)%Qc.
Proof. unfold leb. apply bool_decide_eq_true. Qed.

Lemma leb_false (a b : number) : leb a b = false ↔ (b < a)%Qc.
Proof. unfold leb. rewrite bool_decide_eq_false. symmetry. apply Qclt_nge. Qed.

Lemma gtb_true (a b : number) : gtb a b = true ↔ (b < a)%Qc.
Proof. apply ltb_true. Qed.

Lemma gtb_false (a b : number) : gtb a b = false ↔ (a ≤ b)%Qc.
Proof. apply ltb_false. Qed.

Lemma isInteger_of_Z (z : Z) : isInteger (Qc_of_Z z) = true.
Proof. reflexivity. Qed.

Lemma toZ_of_Z (z : Z) : toZ (Qc_of_Z z) = z.
Proof. reflexivity. Qed.

Lemma isInteger_true (n : number) :
  isInteger n = true ↔ n = Qc_of_Z (toZ n).
Proof.
  split.
  - destruct n as [[a b] Hc]. unfold isInteger, toZ. simpl.
    intros Hb. change ((b =? 1)%positive = true) in Hb.
    apply Pos.eqb_eq in Hb as ->. by apply Qc_is_canon.
  - intros ->. apply isInteger_of_Z.
Qed.

Lemma of_Z_le (n m : Z) : (Qc_of_Z n ≤ Qc_of_Z m)%Qc ↔ n ≤ m.
Proof. symmetry. exact (Z2Qc_inj_le n m). Qed.

Lemma of_Z_lt (n m : Z) : (Qc_of_Z n < Qc_of_Z m)%Qc ↔ n < m.
Proof. symmetry. exact (Z2Qc_inj_lt n m). Qed.

Lemma of_Z_nonneg (n : Z) : (0 ≤ Qc_of_Z n)%Qc ↔ 0 ≤ n.
Proof. rewrite <-Z2Qc_inj_0. exact (of_Z_le 0 n). Qed.

Lemma of_Z_pos (n : Z) : (0 < Qc_of_Z n)%Qc ↔ 0 < n.
Proof. rewrite <-Z2Qc_inj_0. exact (of_Z_lt 0 n). Qed.

(** ** Arrays *)

Section ArrayFacts.
Context {T : Type}.
Implicit Types (a : jsarray T) (k : number) (v : jsval T).

Lemma as_index_of_Z (z : Z) :
  0 ≤ z < MAX_ARRAY_LENGTH → as_index (Qc_of_Z z) = Some (Z.to_nat z).
Proof.
  intros [H0 H1]. unfold as_index.
  rewrite isInteger_of_Z, toZ_of_Z.
  assert (leb 0 (Qc_of_Z z) = true) as ->.
  { apply leb_true. by apply of_Z_nonneg. }
  assert (ltb (Qc_of_Z z) (Qc_of_Z MAX_ARRAY_LENGTH) = true) as ->.
  { apply ltb_true. by apply of_Z_lt. }
  done.
Qed.

Lemma as_index_Some k (i : nat) :
  as_index k = Some i →
  k = Qc_of_Z (Z.of_nat i) ∧ Z.of_nat i < MAX_ARRAY_LENGTH.
Proof.
  unfold as_index.
  destruct (isInteger k) eqn:Hint; [|done].
  destruct (leb 0 k) eqn:H0; [|done].
  destruct (ltb k (Qc_of_Z MAX_ARRAY_LENGTH)) eqn:H1; [|done].
  simpl. intros [= <-].
  apply isInteger_true in Hint. apply leb_true in H0. apply ltb_true in H1.
  rewrite Hint in H0, H1.
  rewrite of_Z_nonneg in H0. rewrite of_Z_lt in H1.
  rewrite Z2Nat.id by done. done.
Qed.

Lemma as_index_inj k k' (i : nat) :
  as_index k = Some i → as_index k' = Some i → k = k'.
Proof.
  intros [-> _]%as_index_Some [-> _]%as_index_Some. done.
Qed.

(** Reading back the property just written. *)
Lemma array_get_set_eq a k v : array_get (array_set a k v) k = v.
Proof.
  unfold array_get, array_set.
  destruct (as_index k) as [i|] eqn:Hk.
  - case_bool_decide as Hlt; simpl.
    + by rewrite list_lookup_insert_eq.
    + rewrite lookup_app_r by lia.
      rewrite lookup_app_r by (rewrite length_replicate; lia).
      rewrite length_replicate.
      by replace (i - length (elems a) - (i - length (elems a)))%nat with 0%nat by lia.
  - simpl. by rewrite lookup_insert_eq.
Qed.

(** A write leaves every other property as it was. *)
Lemma array_get_set_ne a k k' v :
  k ≠ k' → array_get (array_set a k v) k' = array_get a k'.
Proof.
  intros Hne. unfold array_get, array_set.
  destruct (as_index k) as [i|] eqn:Hk;
    destruct (as_index k') as [j|] eqn:Hk'; simpl.
  - assert (i ≠ j) by (intros ->; eauto using as_index_inj).
    case_bool_decide as Hlt; simpl.
    + by rewrite list_lookup_insert_ne.
    + destruct (decide (j < length (elems a))%nat) as [Hj|Hj].
      * by rewrite lookup_app_l.
      * rewrite lookup_app_r by lia.
        rewrite (lookup_ge_None_2 (elems a)) by lia.
        destruct (decide (j < i)%nat).
        -- rewrite lookup_app_l by (rewrite length_replicate; lia).
           by rewrite lookup_replicate_2 by lia.
        -- rewrite lookup_ge_None_2; [done|].
           rewrite length_app, length_replicate. simpl. lia.
  - by case_bool_decide.
  - done.
  - by rewrite lookup_insert_ne.
Qed.

(** A write at an index below [length] keeps the length. *)
Lemma array_length_set_lt a k v (i : nat) :
  as_index k = Some i → Z.of_nat i < array_length a →
  array_length (array_set a k v) = array_length a.
Proof.
  intros Hk Hlt. unfold array_set, array_length in *. rewrite Hk.
  rewrite bool_decide_eq_true_2 by lia. simpl. by rewrite length_insert.
Qed.

(** A write at an index at or beyond [length] grows the array. *)
Lemma array_length_set_ge a k v (i : nat) :
  as_index k = Some i → array_length a ≤ Z.of_nat i →
  array_length (array_set a k v) = Z.of_nat i + 1.
Proof.
  intros Hk Hge. unfold array_set, array_length in *. rewrite Hk.
  rewrite bool_decide_eq_false_2 by lia. simpl.
  rewrite !length_app, length_replicate. simpl. lia.
Qed.

(** A write under a key that is no array index keeps the elements. *)
Lemma array_elems_set_named a k v :
  as_index k = None → elems (array_set a k v) = elems a.
Proof. intros Hk. unfold array_set. by rewrite Hk. Qed.

Lemma array_new_Ok (n : number) a :
  array_new (T:=T) n = Ok a →
  n = Qc_of_Z (toZ n) ∧ 0 ≤ toZ n ≤ MAX_ARRAY_LENGTH ∧
  a = mkArray (replicate (Z.to_nat (toZ n)) undefined) ∅.
Proof.
  unfold array_new.
  destruct (isInteger n) eqn:Hint; [|done].
  destruct (leb 0 n) eqn:H0; [|done].
  destruct (leb n (Qc_of_Z MAX_ARRAY_LENGTH)) eqn:H1; [|done].
  simpl. intros [= <-].
  apply isInteger_true in Hint. apply leb_true in H0. apply leb_true in H1.
  rewrite Hint in H0, H1.
  rewrite of_Z_nonneg in H0. rewrite of_Z_le in H1.
  done.
Qed.

Lemma array_new_of_Z (z : Z) :
  0 ≤ z ≤ MAX_ARRAY_LENGTH →
  array_new (T:=T) (Qc_of_Z z) = Ok (mkArray (replicate (Z.to_nat z) undefined) ∅).
Proof.
  intros [H0 H1]. unfold array_new.
  rewrite isInteger_of_Z, toZ_of_Z.
  assert (leb 0 (Qc_of_Z z) = true) as ->.
  { apply leb_true. by apply of_Z_nonneg. }
  assert (leb (Qc_of_Z z) (Qc_of_Z MAX_ARRAY_LENGTH) = true) as ->.
  { apply leb_true. by apply of_Z_le. }
  done.
Qed.
End ArrayFacts.

(** ** The example grids are the ones the constructors build *)

Example board33_constructed :
  Primary.constructor (Qc_of_Z 3) (Qc_of_Z 3) = Ok board33.
Proof. by vm_compute. Qed.

Example unsafe33_constructed :
  Unsafe.constructor (Qc_of_Z 3) (Qc_of_Z 3) = Ok unsafe33.
Proof. by vm_compute. Qed.

Example memo11_constructed :
  Memo.constructor (Qc_of_Z 1) (Qc_of_Z 1) = Ok memo11.
Proof. by vm_compute. Qed.

(** ** The linear index *)

(** On integer coordinates with [0 <= x < w] the row-major index
    [y * w + x] determines the coordinates, whatever the width. *)
Lemma index_lt_absurd (w x1 x2 : number) (b1 b2 : Z) :
  (0 ≤ x1)%Qc → (x1 < w)%Qc → (0 ≤ x2)%Qc → b1 < b2 →
  (Qc_of_Z b1 * w + x1)%Qc ≠ (Qc_of_Z b2 * w + x2)%Qc.
Proof.
  intros H1 H1w H2 Hb Heq.
  assert (x1 = (Qc_of_Z (b2 - b1) * w + x2)%Qc) as E.
  { apply (inj (Qcplus (Qc_of_Z b1 * w))). rewrite Heq, Z2Qc_inj_sub. ring. }
  assert (0 ≤ w)%Qc as Hw by (apply Qclt_le_weak; by apply Qcle_lt_trans with x1).
  assert (w ≤ x1)%Qc; [|by apply (Qclt_not_le x1 w)].
  rewrite E.
  replace w with (1 * w + 0)%Qc at 1 by ring.
  apply Qcplus_le_compat; [|done].
  apply Qcmult_le_mono_nonneg_r; [done|].
  rewrite <-Z2Qc_inj_1. apply of_Z_le. lia.
Qed.

Lemma index_inj (w x1 y1 x2 y2 : number) :
  isInteger y1 = true → isInteger y2 = true →
  (0 ≤ x1 < w)%Qc → (0 ≤ x2 < w)%Qc →
  (y1 * w + x1)%Qc = (y2 * w + x2)%Qc → x1 = x2 ∧ y1 = y2.
Proof.
  intros Hy1%isInteger_true Hy2%isInteger_true [H1 H1w] [H2 H2w] Heq.
  rewrite Hy1, Hy2 in Heq |- *.
  destruct (Z.lt_trichotomy (toZ y1) (toZ y2)) as [Hlt|[Hlt|Hlt]].
  - by destruct (index_lt_absurd w x1 x2 (toZ y1) (toZ y2)).
  - rewrite Hlt in Heq |- *. split; [|done].
    by apply (inj (Qcplus (Qc_of_Z (toZ y2) * w))).
  - by destruct (index_lt_absurd w x2 x1 (toZ y2) (toZ y1)).
Qed.

(** With an integer width and height, the index of integer coordinates in
    range is an integer of [0, w * h). *)
Lemma index_of_Z (W a b : Z) :
  (Qc_of_Z b * Qc_of_Z W + Qc_of_Z a)%Qc = Qc_of_Z (b * W + a).
Proof. by rewrite Z2Qc_inj_add, Z2Qc_inj_mul. Qed.

Lemma index_bound (W H a b : Z) :
  0 ≤ a < W → 0 ≤ b < H → 0 ≤ b * W + a < W * H.
Proof.
  intros Ha Hb.
  assert (0 ≤ b * W) by (apply Z.mul_nonneg_nonneg; lia).
  assert (b * W ≤ (H - 1) * W) by (apply Z.mul_le_mono_nonneg_r; lia).
  replace ((H - 1) * W) with (W * H - W) in * by ring. lia.
Qed.

Lemma index_onto (W H i : Z) :
  0 < W → 0 ≤ i < W * H →
  0 ≤ i `mod` W < W ∧ 0 ≤ i `div` W < H ∧ i `div` W * W + i `mod` W = i.
Proof.
  intros HW Hi.
  pose proof (Z.mod_pos_bound i W ltac:(done)).
  pose proof (Z.div_mod i W ltac:(lia)).
  assert (0 ≤ i `div` W) by (apply Z.div_pos; lia).
  assert (i `div` W < H) by (apply Z.div_lt_upper_bound; lia).
  lia.
Qed.

(** ** [src/index.ts]: the checked accessors *)

Section PrimaryFacts.
Context {T : Type}.
Implicit Types (this : Primary.FastMap T) (x y : number) (v : jsval T).

Lemma Check_true this x y :
  Primary.CheckIndicesAreValid this x y = true ↔
  (0 ≤ x < Primary.width this)%Qc ∧ (0 ≤ y < Primary.height this)%Qc.
Proof.
  unfold Primary.CheckIndicesAreValid, geb.
  rewrite !andb_true_iff, !leb_true, !ltb_true. tauto.
Qed.

Lemma Check_false this x y :
  Primary.CheckIndicesAreValid this x y = false ↔
  (x < 0)%Qc ∨ (Primary.width this ≤ x)%Qc ∨
  (y < 0)%Qc ∨ (Primary.height this ≤ y)%Qc.
Proof.
  unfold Primary.CheckIndicesAreValid, geb.
  rewrite !andb_false_iff, !leb_false, !ltb_false. tauto.
Qed.

Lemma Get_checked this x y :
  Primary.CheckIndicesAreValid this x y = true →
  Primary.Get this x y =
  (Ok (array_get (Primary.map this) (Primary.Convert2DTo1D this x y)), this).
Proof. intros H. unfold Primary.Get. by rewrite H. Qed.

Lemma Set_checked this x y v :
  Primary.CheckIndicesAreValid this x y = true →
  Primary.Set_ this x y v =
  (Ok tt,
   Primary.mkFastMap
     (array_set (Primary.map this) (Primary.Convert2DTo1D this x y) v)
     (Primary.width this) (Primary.height this)).
Proof. intros H. unfold Primary.Set_. by rewrite H. Qed.

Lemma Get_rejected this x y :
  Primary.CheckIndicesAreValid this x y = false →
  Primary.Get this x y = (Throw (Error "Index out of bounds"), this).
Proof. intros H. unfold Primary.Get. by rewrite H. Qed.

Lemma Set_rejected this x y v :
  Primary.CheckIndicesAreValid this x y = false →
  Primary.Set_ this x y v = (Throw (Error "Index out of bounds"), this).
Proof. intros H. unfold Primary.Set_. by rewrite H. Qed.

Lemma valid_coord_Check this x y :
  valid_coord (Primary.width this) (Primary.height this) x y →
  Primary.CheckIndicesAreValid this x y = true.
Proof. intros (_ & _ & Hx & Hy). by apply Check_true. Qed.

(** What a successful write followed by a read at a second place gives:
    the written value at the same index, the old content elsewhere. *)
Lemma Get_after_Set this x y v x' y' :
  Primary.CheckIndicesAreValid this x y = true →
  Primary.CheckIndicesAreValid this x' y' = true →
  fst (Primary.Get (snd (Primary.Set_ this x y v)) x' y') =
  if decide (Primary.Convert2DTo1D this x y = Primary.Convert2DTo1D this x' y')
  then Ok v else fst (Primary.Get this x' y').
Proof.
  intros H H'. rewrite Set_checked by done. simpl.
  rewrite !Get_checked by done. simpl.
  unfold Primary.Convert2DTo1D. simpl.
  case_decide as Hidx.
  - by rewrite <-Hidx, array_get_set_eq.
  - by rewrite array_get_set_ne.
Qed.
End PrimaryFacts.

(** ** Laws of the checked accessors of [src/index.ts] *)

(** C3 — round-trip law: on every grid, for every integer coordinate pair
    in range and every value [v], [Set(x, y, v)] succeeds and a following
    [Get(x, y)] returns [v]. *)
Theorem set_then_get {T : Type} (this : Primary.FastMap T)
    (x y : number) (v : jsval T) :
  valid_coord (Primary.width this) (Primary.height this) x y →
  ∃ this', Primary.Set_ this x y v = (Ok tt, this') ∧
           Primary.Get this' x y = (Ok v, this').
Proof.
  intros Hv%valid_coord_Check. eexists. split.
  - by apply Set_checked.
  - rewrite Get_checked by done. simpl.
    unfold Primary.Convert2DTo1D. simpl. by rewrite array_get_set_eq.
Qed.

Lemma set_then_get_witness :
  ∃ this', Primary.Set_ board33 (Qc_of_Z 1) (Qc_of_Z 2) (val 42%nat) = (Ok tt, this') ∧
           Primary.Get this' (Qc_of_Z 1) (Qc_of_Z 2) = (Ok (val 42%nat), this').
Proof.
  apply (set_then_get board33 (Qc_of_Z 1) (Qc_of_Z 2) (val 42%nat)).
  repeat split; by vm_compute.
Defined.

(** A write at a valid pair and the read that follows it. *)
Lemma Primary_set_get {T : Type} (this : Primary.FastMap T)
    (x y : number) (v : jsval T) :
  valid_coord (Primary.width this) (Primary.height this) x y →
  ∃ this', Primary.Set_ this x y v = (Ok tt, this') ∧
           Primary.Get this' x y = (Ok v, this').
Proof.
  intros Hv%valid_coord_Check. eexists. split.
  - by apply Set_checked.
  - rewrite Get_checked by done. simpl.
    unfold Primary.Convert2DTo1D. simpl. by rewrite array_get_set_eq.
Qed.

(** C6 — overwrite and clearing laws: on every grid and for every integer
    coordinate pair in range, [Set(x, y, v1)] then [Set(x, y, v2)] then
    [Get(x, y)] returns [v2]; with [v2] the absent marker [null] the read
    returns [null]. *)
Theorem overwrite_and_clear {T : Type} (this : Primary.FastMap T)
    (x y : number) (v1 v2 : jsval T) :
  valid_coord (Primary.width this) (Primary.height this) x y →
  let s1 := snd (Primary.Set_ this x y v1) in
  fst (Primary.Set_ this x y v1) = Ok tt ∧
  fst (Primary.Set_ s1 x y v2) = Ok tt ∧
  fst (Primary.Get (snd (Primary.Set_ s1 x y v2)) x y) = Ok v2 ∧
  fst (Primary.Set_ s1 x y null) = Ok tt ∧
  fst (Primary.Get (snd (Primary.Set_ s1 x y null)) x y) = Ok null.
Proof.
  intros Hv s1.
  destruct (Primary_set_get this x y v1 Hv) as (s1' & Hs1 & _).
  assert (s1 = s1') as -> by (unfold s1; by rewrite Hs1).
  assert (valid_coord (Primary.width s1') (Primary.height s1') x y) as Hv1.
  { rewrite Set_checked in Hs1 by by apply valid_coord_Check.
    by injection Hs1 as <-. }
  destruct (Primary_set_get s1' x y v2 Hv1) as (s2 & Hs2 & Hg2).
  destruct (Primary_set_get s1' x y null Hv1) as (s3 & Hs3 & Hg3).
  rewrite Hs1, Hs2, Hs3. simpl. by rewrite Hg2, Hg3.
Qed.

Lemma overwrite_and_clear_witness :
  let s1 := snd (Primary.Set_ board33 (Qc_of_Z 1) (Qc_of_Z 1) (val 10%nat)) in
  fst (Primary.Set_ board33 (Qc_of_Z 1) (Qc_of_Z 1) (val 10%nat)) = Ok tt ∧
  fst (Primary.Set_ s1 (Qc_of_Z 1) (Qc_of_Z 1) (val 20%nat)) = Ok tt ∧
  fst (Primary.Get (snd (Primary.Set_ s1 (Qc_of_Z 1) (Qc_of_Z 1) (val 20%nat)))
         (Qc_of_Z 1) (Qc_of_Z 1)) = Ok (val 20%nat) ∧
  fst (Primary.Set_ s1 (Qc_of_Z 1) (Qc_of_Z 1) null) = Ok tt ∧
  fst (Primary.Get (snd (Primary.Set_ s1 (Qc_of_Z 1) (Qc_of_Z 1) null))
         (Qc_of_Z 1) (Qc_of_Z 1)) = Ok null.
Proof.
  apply (overwrite_and_clear board33 (Qc_of_Z 1) (Qc_of_Z 1) (val 10%nat) (val 20%nat)).
  repeat split; by vm_compute.
Defined.

(** C4 (counterexample) — [src/index.ts] builds [Grid(2.5, 2)], a grid of
    five slots on which the valid pair [(0, 1)] has the index
    [1 * 2.5 + 0 = 2.5], which is none of the linear indices [0 .. 4]: a
    new grid answers [Get(0, 1)] with [undefined], not with a slot. *)
Lemma fractional_width_index_off_grid :
  @Primary.constructor nat (num 5 2) (Qc_of_Z 2) = Ok wide52 ∧
  array_length (Primary.map wide52) = 5 ∧
  valid_coord (Primary.width wide52) (Primary.height wide52)
              (Qc_of_Z 0) (Qc_of_Z 1) ∧
  Primary.Convert2DTo1D wide52 (Qc_of_Z 0) (Qc_of_Z 1) = num 5 2 ∧
  (∀ i : Z, Primary.Convert2DTo1D wide52 (Qc_of_Z 0) (Qc_of_Z 1) ≠ Qc_of_Z i) ∧
  Primary.Get wide52 (Qc_of_Z 0) (Qc_of_Z 1) = (Ok undefined, wide52).
Proof.
  assert (Primary.Convert2DTo1D wide52 (Qc_of_Z 0) (Qc_of_Z 1) = num 5 2) as Hidx.
  { apply Qc_is_canon. by vm_compute. }
  split; [by vm_compute|]. split; [by vm_compute|].
  split; [repeat split; by vm_compute|]. split; [done|]. split.
  - intros i Hi. rewrite Hidx in Hi.
    apply (f_equal isInteger) in Hi. by vm_compute in Hi.
  - by vm_compute.
Qed.

(** C4 (amended) — independence law: on every grid whose width and height
    are positive integers with [width * height <= 2^32 - 1], for distinct
    valid coordinates [(x1, y1)] and [(x2, y2)], [Set(x1, y1, v)] does not
    change the result of [Get(x2, y2)], because the two linear indices
    differ; and [y * width + x] maps the valid coordinates one-to-one onto
    the linear indices [0, width * height). *)
Theorem set_independent {T : Type} (this : Primary.FastMap T) :
  let w := Primary.width this in
  let h := Primary.height this in
  isInteger w = true → isInteger h = true → (0 < w)%Qc → (0 < h)%Qc →
  (w * h ≤ Qc_of_Z MAX_ARRAY_LENGTH)%Qc →
  (∀ x1 y1 x2 y2 v,
     valid_coord w h x1 y1 → valid_coord w h x2 y2 → (x1, y1) ≠ (x2, y2) →
     fst (Primary.Get (snd (Primary.Set_ this x1 y1 v)) x2 y2)
       = fst (Primary.Get this x2 y2) ∧
     Primary.Convert2DTo1D this x1 y1 ≠ Primary.Convert2DTo1D this x2 y2) ∧
  (∀ x y, valid_coord w h x y →
     ∃ i, Primary.Convert2DTo1D this x y = Qc_of_Z i ∧ 0 ≤ i < toZ w * toZ h) ∧
  (∀ i, 0 ≤ i < toZ w * toZ h →
     ∃ x y, valid_coord w h x y ∧ Primary.Convert2DTo1D this x y = Qc_of_Z i).
Proof.
  intros w h Hw Hh Hw0 Hh0 _. split; [|split].
  - intros x1 y1 x2 y2 v Hv1 Hv2 Hne.
    assert (Primary.Convert2DTo1D this x1 y1 ≠ Primary.Convert2DTo1D this x2 y2)
      as Hidx.
    { destruct Hv1 as (_ & Hy1 & Hx1 & _), Hv2 as (_ & Hy2 & Hx2 & _).
      intros Heq. apply Hne.
      destruct (index_inj w x1 y1 x2 y2) as [-> ->]; done. }
    split; [|done].
    rewrite Get_after_Set by by apply valid_coord_Check.
    by rewrite decide_False.
  - intros x y (Hx%isInteger_true & Hy%isInteger_true & Hxr & Hyr).
    unfold Primary.Convert2DTo1D. fold w.
    apply isInteger_true in Hw, Hh.
    revert Hxr Hyr. rewrite Hx, Hy, Hw, Hh, !toZ_of_Z.
    rewrite !of_Z_nonneg, !of_Z_lt. intros Hxr Hyr.
    exists (toZ y * toZ w + toZ x). split; [apply index_of_Z|].
    by apply index_bound.
  - intros i Hi. unfold Primary.Convert2DTo1D. fold w.
    apply isInteger_true in Hw, Hh.
    revert Hw0. rewrite Hw, of_Z_pos. intros Hw0.
    destruct (index_onto (toZ w) (toZ h) i) as (Hm & Hd & Hs); [done|done|].
    exists (Qc_of_Z (i `mod` toZ w)), (Qc_of_Z (i `div` toZ w)). split.
    + unfold valid_coord. rewrite !isInteger_of_Z. rewrite Hh.
      rewrite !of_Z_nonneg, !of_Z_lt. done.
    + by rewrite index_of_Z, Hs.
Qed.

Lemma set_independent_witness :
  (fst (Primary.Get (snd (Primary.Set_ board33 (Qc_of_Z 1) (Qc_of_Z 0) (val 7%nat)))
          (Qc_of_Z 0) (Qc_of_Z 1))
     = fst (Primary.Get board33 (Qc_of_Z 0) (Qc_of_Z 1)) ∧
   Primary.Convert2DTo1D board33 (Qc_of_Z 1) (Qc_of_Z 0)
     ≠ Primary.Convert2DTo1D board33 (Qc_of_Z 0) (Qc_of_Z 1)) ∧
  (∃ i, Primary.Convert2DTo1D board33 (Qc_of_Z 2) (Qc_of_Z 2) = Qc_of_Z i ∧
        0 ≤ i < 3 * 3) ∧
  (∃ x y, valid_coord (Qc_of_Z 3) (Qc_of_Z 3) x y ∧
          Primary.Convert2DTo1D board33 x y = Qc_of_Z 4).
Proof.
  destruct (set_independent board33) as (H1 & H2 & H3); try by vm_compute.
  split; [|split].
  - apply H1.
    + repeat split; by vm_compute.
    + repeat split; by vm_compute.
    + intros Heq. by injection Heq.
  - apply H2. repeat split; by vm_compute.
  - apply H3. by vm_compute.
Defined.

(** C5 — fresh grid: for integers [w > 0] and [h > 0] whose product is an
    admissible array length, construction succeeds, [Width()] is [w],
    [Height()] is [h], and [Get(x, y)] returns the absent marker [null] at
    every valid coordinate. *)
Theorem fresh_grid {T : Type} (w h : number) :
  isInteger w = true → isInteger h = true →
  (0 < w)%Qc → (0 < h)%Qc → (w * h ≤ Qc_of_Z MAX_ARRAY_LENGTH)%Qc →
  ∃ g : Primary.FastMap T,
    Primary.constructor w h = Ok g ∧
    Primary.Width g = w ∧ Primary.Height g = h ∧
    ∀ x y, valid_coord w h x y → Primary.Get g x y = (Ok null, g).
Proof.
  intros Hw%isInteger_true Hh%isInteger_true.
  rewrite Hw, Hh, <-Z2Qc_inj_mul, !of_Z_pos, of_Z_le.
  generalize (toZ w) (toZ h). clear. intros W H HW HH Hmax.
  assert (0 ≤ W * H) as Hnn by (apply Z.mul_nonneg_nonneg; lia).
  eexists. unfold Primary.constructor.
  rewrite <-Z2Qc_inj_mul, array_new_of_Z by done.
  split; [done|]. split; [done|]. split; [done|].
  intros x y (Hx%isInteger_true & Hy%isInteger_true & Hxr & Hyr).
  revert Hxr Hyr. rewrite Hx, Hy, !of_Z_nonneg, !of_Z_lt. intros Hxr Hyr.
  pose proof (index_bound W H (toZ x) (toZ y) Hxr Hyr) as Hi.
  rewrite Get_checked.
  2:{ apply Check_true. simpl. by rewrite !of_Z_nonneg, !of_Z_lt. }
  f_equal. f_equal. unfold Primary.Convert2DTo1D. simpl.
  rewrite index_of_Z. unfold array_get, array_fill. simpl.
  rewrite as_index_of_Z by lia.
  rewrite length_replicate, lookup_replicate_2 by lia. done.
Qed.

Lemma fresh_grid_witness :
  ∃ g : Primary.FastMap nat,
    Primary.constructor (Qc_of_Z 3) (Qc_of_Z 4) = Ok g ∧
    Primary.Width g = Qc_of_Z 3 ∧ Primary.Height g = Qc_of_Z 4 ∧
    ∀ x y, valid_coord (Qc_of_Z 3) (Qc_of_Z 4) x y →
           Primary.Get g x y = (Ok null, g).
Proof.
  apply (fresh_grid (Qc_of_Z 3) (Qc_of_Z 4)); by vm_compute.
Defined.

(** ** The revisions with [validateSize] and [Number.isInteger] *)

(** The three revisions share the text of [validateSize] (up to the
    spelling of one message) and of [checkIndicesAreValid]; the same
    scripts settle them. *)
Ltac validate_cases w h :=
  destruct (isInteger w) eqn:?Hw; destruct (isInteger h) eqn:?Hh;
  destruct (leb w 0) eqn:?Hw0; destruct (leb h 0) eqn:?Hh0;
  destruct (gtb (w * h)%Qc (Qc_of_Z MAX_ARRAY_LENGTH)) eqn:?Hmax;
  simpl; try done.

Ltac check_iff :=
  unfold geb; rewrite ?andb_true_iff, ?andb_false_iff, ?leb_true, ?ltb_true,
    ?leb_false, ?ltb_false, ?not_true_iff_false; unfold valid_coord; tauto.

Section ValidatedFacts.
Context {T : Type}.
Implicit Types (x y w h : number) (v : jsval T).

Lemma Validated_check_true (this : Validated.FastMap T) x y :
  Validated.checkIndicesAreValid this x y = true ↔
  valid_coord (Validated.width this) (Validated.height this) x y.
Proof. unfold Validated.checkIndicesAreValid. check_iff. Qed.

Lemma Memo_check_true (this : Memo.FastMap T) x y :
  Memo.checkIndicesAreValid this x y = true ↔
  valid_coord (Memo.width this) (Memo.height this) x y.
Proof. unfold Memo.checkIndicesAreValid. check_iff. Qed.

Lemma Unsafe_check_true (this : Unsafe.FastMap T) x y :
  Unsafe.checkIndicesAreValid this x y = true ↔
  valid_coord (Unsafe.width this) (Unsafe.height this) x y.
Proof. unfold Unsafe.checkIndicesAreValid. check_iff. Qed.

(** What makes a coordinate pair invalid, in the words of the bounds law. *)
Lemma not_valid_coord w h x y :
  ¬ valid_coord w h x y ↔
  isInteger x = false ∨ isInteger y = false ∨
  (x < 0)%Qc ∨ (w ≤ x)%Qc ∨ (y < 0)%Qc ∨ (h ≤ y)%Qc.
Proof.
  unfold valid_coord.
  rewrite <-(leb_false 0 x), <-(leb_false 0 y), <-(ltb_false x w), <-(ltb_false y h).
  rewrite <-(leb_true 0 x), <-(leb_true 0 y), <-(ltb_true x w), <-(ltb_true y h).
  destruct (isInteger x), (isInteger y), (leb 0 x), (ltb x w), (leb 0 y), (ltb y h);
    intuition congruence.
Qed.

(** [validateSize] accepts exactly the positive integers whose product
    is an admissible length. *)
Lemma Validated_validateSize_Ok w h :
  Validated.validateSize w h = Ok tt ↔
  isInteger w = true ∧ isInteger h = true ∧ (0 < w)%Qc ∧ (0 < h)%Qc ∧
  (w * h ≤ Qc_of_Z MAX_ARRAY_LENGTH)%Qc.
Proof.
  unfold Validated.validateSize. rewrite <-!leb_false, <-gtb_false.
  validate_cases w h; intuition congruence.
Qed.
End ValidatedFacts.

(** ** Construction *)

(** C1 (counterexample) — [src/index.ts] accepts a zero width: [Grid(0, 5)]
    is built, with an empty storage. *)
Lemma constructor_accepts_zero_width :
  (Qc_of_Z 0 ≤ 0)%Qc ∧
  @Primary.constructor nat (Qc_of_Z 0) (Qc_of_Z 5) =
  Ok (Primary.mkFastMap (mkArray [] ∅) (Qc_of_Z 0) (Qc_of_Z 5)).
Proof. split; by vm_compute. Qed.

(** [src/index.ts] also accepts a fractional width when the product is an
    integer: [Grid(2.5, 2)] has five slots. *)
Example constructor_accepts_fraction :
  isInteger (num 5 2) = false ∧
  @Primary.constructor nat (num 5 2) (Qc_of_Z 2) =
  Ok (Primary.mkFastMap (mkArray (replicate 5 null) ∅) (num 5 2) (Qc_of_Z 2)).
Proof. split; by vm_compute. Qed.

(** C1 (amended) — in every revision whose constructor calls
    [validateSize], a non-integer dimension, a non-positive dimension or a
    product above [2^32 - 1] makes the constructor throw an [Error] whose
    message tells the three cases apart, and no grid is returned; the
    constructor of [src/index.ts] never throws such an [Error]. *)
Theorem invalid_dimensions_rejected {T : Type} (w h : number) :
  isInteger w = false ∨ isInteger h = false ∨ (w ≤ 0)%Qc ∨ (h ≤ 0)%Qc ∨
  (Qc_of_Z MAX_ARRAY_LENGTH < w * h)%Qc →
  ((isInteger w = false ∨ isInteger h = false) ∧
   rejected_with (T:=T) w h "Width and Geight must be Integer values"
                            "Width and Height must be Integer values"
   ∨
   (isInteger w = true ∧ isInteger h = true ∧ ((w ≤ 0)%Qc ∨ (h ≤ 0)%Qc)) ∧
   rejected_with (T:=T) w h "Width and height must be greater than 0"
                            "Width and height must be greater than 0"
   ∨
   (isInteger w = true ∧ isInteger h = true ∧ (0 < w)%Qc ∧ (0 < h)%Qc ∧
    (Qc_of_Z MAX_ARRAY_LENGTH < w * h)%Qc) ∧
   rejected_with (T:=T) w h "Specified dimensions are too large"
                            "Specified dimensions are too large")
  ∧ ∀ msg, @Primary.constructor T w h ≠ Throw (Error msg).
Proof.
  intros Hbad. split.
  - revert Hbad. unfold rejected_with.
    unfold Validated.constructor, Memo.constructor, Unsafe.constructor.
    unfold Validated.validateSize, Memo.validateSize, Unsafe.validateSize.
    rewrite <-!(gtb_true (w * h)%Qc), <-!leb_true, <-!leb_false.
    validate_cases w h; intuition congruence.
  - intros msg. unfold Primary.constructor, array_new.
    by destruct (_ && _).
Qed.

Lemma invalid_dimensions_rejected_witness :
  rejected_with (T:=nat) (Qc_of_Z 0) (Qc_of_Z 5)
    "Width and height must be greater than 0"
    "Width and height must be greater than 0".
Proof.
  destruct (invalid_dimensions_rejected (T:=nat) (Qc_of_Z 0) (Qc_of_Z 5))
    as [[[[H|H] _]|[[_ H]|[(_ & _ & H & _) _]]] _].
  - right; right; left. by vm_compute.
  - by vm_compute in H.
  - by vm_compute in H.
  - exact H.
  - by vm_compute in H.
Defined.

(** What a successful construction in [src/index.ts] returns. *)
Lemma Primary_constructor_Ok {T : Type} (w h : number) (g : Primary.FastMap T) :
  Primary.constructor w h = Ok g →
  Primary.Width g = w ∧ Primary.Height g = h ∧
  length_invariant (Primary.map g) w h.
Proof.
  unfold Primary.constructor.
  destruct (array_new (w * h)%Qc) as [a|] eqn:Ha; [|done].
  intros [= <-]. simpl. split; [done|]. split; [done|].
  apply array_new_Ok in Ha as (Hn & [H0 _] & ->).
  unfold length_invariant, array_fill, array_length. simpl.
  rewrite !length_replicate. by rewrite Z2Nat.id, <-Hn.
Qed.

(** C10 (counterexample) — the constructor of [src/index.ts] does raise:
    [Grid(-1, 5)] asks for an array of length [-5], which [new Array]
    refuses with a [RangeError]. *)
Lemma constructor_negative_length_throws :
  @Primary.constructor nat (Qc_of_Z (-1)) (Qc_of_Z 5) =
  Throw (RangeError "Invalid array length").
Proof. by vm_compute. Qed.

(** The same happens with a fractional product and with a product above
    [2^32 - 1]. *)
Example constructor_fractional_length_throws :
  @Primary.constructor nat (num 5 2) (Qc_of_Z 5) =
  Throw (RangeError "Invalid array length").
Proof. by vm_compute. Qed.

Example constructor_huge_length_throws :
  @Primary.constructor nat (Qc_of_Z 65536) (Qc_of_Z 65536) =
  Throw (RangeError "Invalid array length").
Proof. by vm_compute. Qed.

(** C10 (amended) — the constructor of [src/index.ts] validates nothing
    itself.  Whenever the product [width * height] is computed exactly, or
    both arguments are integers, it succeeds exactly when [width * height]
    is an integer of [0, 2^32 - 1], the lengths [new Array] accepts, and
    otherwise the allocation throws a [RangeError]; whenever it succeeds,
    [Width()] and [Height()] return the arguments as passed and the
    storage has [width * height] slots. *)
Theorem constructor_unvalidated {T : Type} (w h : number) :
  product_faithful w h →
  let admissible :=
    isInteger (w * h)%Qc = true ∧
    (0 ≤ w * h)%Qc ∧ (w * h ≤ Qc_of_Z MAX_ARRAY_LENGTH)%Qc in
  ((∃ g, @Primary.constructor T w h = Ok g) ↔ admissible) ∧
  (¬ admissible →
   @Primary.constructor T w h = Throw (RangeError "Invalid array length")) ∧
  (∀ g, @Primary.constructor T w h = Ok g →
        Primary.Width g = w ∧ Primary.Height g = h ∧
        length_invariant (Primary.map g) w h).
Proof.
  intros _ admissible. subst admissible.
  split; [|split; [|apply Primary_constructor_Ok]];
    unfold Primary.constructor, array_new; rewrite <-!leb_true;
    destruct (isInteger (w * h)%Qc), (leb 0 (w * h)%Qc),
             (leb (w * h)%Qc (Qc_of_Z MAX_ARRAY_LENGTH)); simpl;
    try (split; [intros [g Hg]; by try discriminate
                |intros (? & ? & ?); by try discriminate; eauto]);
    try (intros HnA; try done; by destruct HnA).
Qed.

Lemma constructor_unvalidated_witness :
  (∃ g, @Primary.constructor nat (num 5 2) (Qc_of_Z 2) = Ok g) ∧
  @Primary.constructor nat (num 5 2) (Qc_of_Z 5)
    = Throw (RangeError "Invalid array length").
Proof.
  split.
  - apply (constructor_unvalidated (T:=nat) (num 5 2) (Qc_of_Z 2)).
    + left. exists 5, 0. split; [by vm_compute|]. split; [lia|].
      apply Qc_is_canon. by vm_compute.
    + repeat split; by vm_compute.
  - apply (constructor_unvalidated (T:=nat) (num 5 2) (Qc_of_Z 5)).
    + left. exists 25, (-1). split; [by vm_compute|]. split; [lia|].
      apply Qc_is_canon. by vm_compute.
    + intros (H & _). by vm_compute in H.
Defined.

(** ** Bounds *)

Section Bounds.
Context {T : Type}.
Variable truthy : T → bool.
Implicit Types (x y w h : number) (v : jsval T).

Lemma invalid_coord_not_valid w h x y :
  invalid_coord w h x y ↔ ¬ valid_coord w h x y.
Proof. rewrite not_valid_coord. unfold invalid_coord, out_of_range. tauto. Qed.

Lemma Validated_rejects (this : Validated.FastMap T) x y v :
  invalid_coord (Validated.width this) (Validated.height this) x y →
  Validated.Get this x y = (Throw (Error "Index out of bounds"), this) ∧
  Validated.Set_ this x y v = (Throw (Error "Index out of bounds"), this).
Proof.
  rewrite invalid_coord_not_valid, <-Validated_check_true, not_true_iff_false.
  intros H. unfold Validated.Get, Validated.Set_. by rewrite H.
Qed.

Lemma Unsafe_rejects (this : Unsafe.FastMap T) x y v :
  invalid_coord (Unsafe.width this) (Unsafe.height this) x y →
  Unsafe.Get this x y = (Throw (Error "Index out of bounds"), this) ∧
  Unsafe.Set_ this x y v = (Throw (Error "Index out of bounds"), this).
Proof.
  rewrite invalid_coord_not_valid, <-Unsafe_check_true, not_true_iff_false.
  intros H. unfold Unsafe.Get, Unsafe.Set_. by rewrite H.
Qed.

Lemma cache_sound_miss (this : Memo.FastMap T) x y :
  cache_sound this →
  invalid_coord (Memo.width this) (Memo.height this) x y →
  Memo.memoCache this !! (x, y) = None.
Proof.
  intros Hc Hbad%invalid_coord_not_valid.
  destruct (Memo.memoCache this !! (x, y)) as [c|] eqn:Hl; [|done].
  destruct Hbad. by eapply Hc.
Qed.

Lemma Memo_rejects (this : Memo.FastMap T) x y v :
  cache_sound this →
  invalid_coord (Memo.width this) (Memo.height this) x y →
  Memo.Get truthy this x y = (Throw (Error "Index out of bounds"), this) ∧
  Memo.Set_ this x y v = (Throw (Error "Index out of bounds"), this).
Proof.
  intros Hc Hbad. unfold Memo.Get, Memo.Set_.
  rewrite cache_sound_miss by done.
  apply invalid_coord_not_valid in Hbad.
  rewrite <-Memo_check_true, not_true_iff_false in Hbad. by rewrite Hbad.
Qed.

(** [cache_sound] is an invariant of the revision with the cache. *)
Lemma cache_sound_constructor w h (g : Memo.FastMap T) :
  Memo.constructor w h = Ok g → cache_sound g.
Proof.
  unfold Memo.constructor.
  destruct (Memo.validateSize w h); [|done].
  destruct (array_new _); [|done].
  intros [= <-] x y c. simpl. by rewrite lookup_empty.
Qed.

Lemma cache_sound_Get (this : Memo.FastMap T) x y :
  cache_sound this → cache_sound (snd (Memo.Get truthy this x y)).
Proof.
  intros Hc. unfold Memo.Get.
  destruct (Memo.memoCache this !! (x, y)); [done|].
  destruct (Memo.checkIndicesAreValid this x y) eqn:Hv; [|done].
  intros x' y' c. simpl. rewrite lookup_insert.
  case_decide as Hk.
  - injection Hk as <- <-. intros _. by apply Memo_check_true.
  - apply Hc.
Qed.

Lemma cache_sound_Set (this : Memo.FastMap T) x y v :
  cache_sound this → cache_sound (snd (Memo.Set_ this x y v)).
Proof.
  intros Hc. unfold Memo.Set_.
  destruct (Memo.checkIndicesAreValid this x y) eqn:Hv; [|done].
  intros x' y' c. simpl. rewrite lookup_delete.
  case_decide; [done|]. apply Hc.
Qed.
End Bounds.

(** C2 (counterexample) — [src/index.ts] does not reject a non-integer
    coordinate that lies in range: on the 3 by 3 grid [Get(0.5, 0)] returns
    [undefined] and [Set(0.5, 0, 7)] succeeds. *)
Lemma fractional_coordinate_accepted :
  isInteger (num 1 2) = false ∧
  Primary.Get board33 (num 1 2) (Qc_of_Z 0) = (Ok undefined, board33) ∧
  fst (Primary.Set_ board33 (num 1 2) (Qc_of_Z 0) (val 7%nat)) = Ok tt.
Proof. repeat split; by vm_compute. Qed.

(** C2 (amended) — for every grid and every coordinate pair with [x < 0],
    [x >= width], [y < 0] or [y >= height], both [Get] and [Set] throw an
    [Error] with message "Index out of bounds" and the grid is left as it
    was; in the revisions that check [Number.isInteger] the same holds for
    every non-integer coordinate as well. *)
Theorem out_of_bounds_rejected {T : Type} (truthy : T → bool)
    (x y : number) (v : jsval T) :
  (∀ this : Primary.FastMap T,
     out_of_range (Primary.width this) (Primary.height this) x y →
     Primary.Get this x y = (Throw (Error "Index out of bounds"), this) ∧
     Primary.Set_ this x y v = (Throw (Error "Index out of bounds"), this)) ∧
  (∀ this : Validated.FastMap T,
     invalid_coord (Validated.width this) (Validated.height this) x y →
     Validated.Get this x y = (Throw (Error "Index out of bounds"), this) ∧
     Validated.Set_ this x y v = (Throw (Error "Index out of bounds"), this)) ∧
  (∀ this : Memo.FastMap T,
     cache_sound this →
     invalid_coord (Memo.width this) (Memo.height this) x y →
     Memo.Get truthy this x y = (Throw (Error "Index out of bounds"), this) ∧
     Memo.Set_ this x y v = (Throw (Error "Index out of bounds"), this)) ∧
  (∀ this : Unsafe.FastMap T,
     invalid_coord (Unsafe.width this) (Unsafe.height this) x y →
     Unsafe.Get this x y = (Throw (Error "Index out of bounds"), this) ∧
     Unsafe.Set_ this x y v = (Throw (Error "Index out of bounds"), this)).
Proof.
  split; [|split; [|split]].
  - intros this Hbad%Check_false.
    by rewrite Get_rejected, Set_rejected.
  - intros this. apply Validated_rejects.
  - intros this. by apply Memo_rejects.
  - intros this. apply Unsafe_rejects.
Qed.

Lemma out_of_bounds_rejected_witness :
  Primary.Get board33 (Qc_of_Z 3) (Qc_of_Z 0)
    = (Throw (Error "Index out of bounds"), board33) ∧
  Primary.Set_ board33 (Qc_of_Z 3) (Qc_of_Z 0) (val 42%nat)
    = (Throw (Error "Index out of bounds"), board33).
Proof.
  apply (out_of_bounds_rejected nat_truthy (Qc_of_Z 3) (Qc_of_Z 0) (val 42%nat)).
  right; left. by vm_compute.
Defined.

(** ** Unchecked accessors *)

(** C8 — in the revision with unchecked accessors, at every valid
    coordinate [GetUnsafe(x, y)] returns what [Get(x, y)] returns and
    [SetUnsafe(x, y, v)] leaves the grid in the state [Set(x, y, v)] leaves
    it in. *)
Theorem unsafe_agrees_in_range {T : Type} (this : Unsafe.FastMap T)
    (x y : number) (v : jsval T) :
  valid_coord (Unsafe.width this) (Unsafe.height this) x y →
  Unsafe.GetUnsafe this x y = Unsafe.Get this x y ∧
  Unsafe.SetUnsafe this x y v = Unsafe.Set_ this x y v.
Proof.
  intros Hv%Unsafe_check_true.
  unfold Unsafe.Get, Unsafe.Set_, Unsafe.GetUnsafe, Unsafe.SetUnsafe.
  by rewrite Hv.
Qed.

Lemma unsafe_agrees_in_range_witness :
  Unsafe.GetUnsafe unsafe33 (Qc_of_Z 2) (Qc_of_Z 1)
    = Unsafe.Get unsafe33 (Qc_of_Z 2) (Qc_of_Z 1) ∧
  Unsafe.SetUnsafe unsafe33 (Qc_of_Z 2) (Qc_of_Z 1) (val 5%nat)
    = Unsafe.Set_ unsafe33 (Qc_of_Z 2) (Qc_of_Z 1) (val 5%nat).
Proof.
  apply (unsafe_agrees_in_range unsafe33 (Qc_of_Z 2) (Qc_of_Z 1) (val 5%nat)).
  repeat split; by vm_compute.
Defined.

(** Out of range the unchecked write is not contained: on the 3 by 3 grid
    [SetUnsafe(0, 5, v)] grows the storage to 16 slots. *)
Example unsafe_write_out_of_range :
  array_length (Unsafe.map unsafe33) = 9 ∧
  array_length (Unsafe.map (snd (Unsafe.SetUnsafe unsafe33 (Qc_of_Z 0) (Qc_of_Z 5)
                                   (val 5%nat)))) = 16.
Proof. split; by vm_compute. Qed.

(** ** What [Get] does to the state *)

(** C7 (counterexample) — in the revision with the cache, [Get] writes to
    the state: on a new 1 by 1 grid [Get(0, 0)] returns [null] and leaves a
    grid whose [memoCache] holds the entry for [(0, 0)]. *)
Lemma memo_get_changes_state :
  fst (Memo.Get nat_truthy memo11 (Qc_of_Z 0) (Qc_of_Z 0)) = Ok null ∧
  Memo.memoCache memo11 !! (Qc_of_Z 0, Qc_of_Z 0) = None ∧
  Memo.memoCache (snd (Memo.Get nat_truthy memo11 (Qc_of_Z 0) (Qc_of_Z 0)))
    !! (Qc_of_Z 0, Qc_of_Z 0) = Some null ∧
  snd (Memo.Get nat_truthy memo11 (Qc_of_Z 0) (Qc_of_Z 0)) ≠ memo11.
Proof.
  assert (Memo.Get nat_truthy memo11 (Qc_of_Z 0) (Qc_of_Z 0) =
          (Ok null, Memo.mkFastMap (mkArray [null] ∅) (Qc_of_Z 1) (Qc_of_Z 1)
                      (<[(Qc_of_Z 0, Qc_of_Z 0) := null]> ∅))) as ->.
  { unfold Memo.Get. simpl. rewrite lookup_empty. by vm_compute. }
  simpl. rewrite lookup_empty, lookup_insert_eq.
  repeat split. intros H.
  apply (f_equal (λ s, Memo.memoCache s !! (Qc_of_Z 0, Qc_of_Z 0))) in H.
  simpl in H. by rewrite lookup_insert_eq, lookup_empty in H.
Qed.

(** C7 (amended) — [Get] never changes the width, the height or the
    storage; in [src/index.ts] and in every revision without the cache it
    leaves the whole state as it was, whether it returns or throws, so a
    [Get] before another call does not alter that call; in the revision
    with the cache a [Get] that throws changes nothing and a [Get] that
    returns [r] changes at most the cache, by recording [r] under
    [(x, y)]. *)
Theorem get_state_effect {T : Type} (truthy : T → bool) (x y : number) :
  (∀ this : Primary.FastMap T,
     snd (Primary.Get this x y) = this ∧
     (∀ x' y', Primary.Get (snd (Primary.Get this x y)) x' y'
               = Primary.Get this x' y') ∧
     (∀ x' y' v, Primary.Set_ (snd (Primary.Get this x y)) x' y' v
                 = Primary.Set_ this x' y' v)) ∧
  (∀ this : Validated.FastMap T, snd (Validated.Get this x y) = this) ∧
  (∀ this : Unsafe.FastMap T,
     snd (Unsafe.Get this x y) = this ∧ snd (Unsafe.GetUnsafe this x y) = this) ∧
  (∀ this : Memo.FastMap T,
     let after := snd (Memo.Get truthy this x y) in
     Memo.map after = Memo.map this ∧
     Memo.width after = Memo.width this ∧
     Memo.height after = Memo.height this ∧
     (∀ e, fst (Memo.Get truthy this x y) = Throw e → after = this) ∧
     (∀ r, fst (Memo.Get truthy this x y) = Ok r →
           Memo.memoCache after = Memo.memoCache this ∨
           Memo.memoCache after = <[(x, y) := r]> (Memo.memoCache this))).
Proof.
  split; [|split; [|split]].
  - intros this.
    assert (snd (Primary.Get this x y) = this) as ->; [|done].
    unfold Primary.Get. by destruct (negb _).
  - intros this. unfold Validated.Get. by destruct (negb _).
  - intros this. split; [|done]. unfold Unsafe.Get. by destruct (negb _).
  - intros this. unfold Memo.Get.
    destruct (Memo.memoCache this !! (x, y)) as [c|]; simpl.
    { repeat split; try done; intros r _; by left. }
    destruct (Memo.checkIndicesAreValid this x y); simpl.
    + repeat split; try done; intros r [= <-]; by right.
    + repeat split; try done; intros r _; by left.
Qed.

Lemma get_state_effect_witness :
  snd (Primary.Get board33 (Qc_of_Z 1) (Qc_of_Z 2)) = board33 ∧
  snd (Primary.Get board33 (Qc_of_Z 3) (Qc_of_Z 0)) = board33.
Proof.
  split.
  - apply (get_state_effect nat_truthy (Qc_of_Z 1) (Qc_of_Z 2)).
  - apply (get_state_effect nat_truthy (Qc_of_Z 3) (Qc_of_Z 0)).
Defined.

(** The cache also answers with [cached || null], so that a falsy value is
    read back once and reported as [null] afterwards: after [Set(0, 0, 0)]
    the first [Get(0, 0)] returns [0] and the second returns [null]. *)
Example memo_get_falsy_value :
  let s1 := snd (Memo.Set_ memo11 (Qc_of_Z 0) (Qc_of_Z 0) (val 0%nat)) in
  let s2 := snd (Memo.Get nat_truthy s1 (Qc_of_Z 0) (Qc_of_Z 0)) in
  fst (Memo.Get nat_truthy s1 (Qc_of_Z 0) (Qc_of_Z 0)) = Ok (val 0%nat) ∧
  fst (Memo.Get nat_truthy s2 (Qc_of_Z 0) (Qc_of_Z 0)) = Ok null.
Proof. split; by vm_compute. Qed.

(** ** The storage length *)

Section Length.
Context {T : Type}.
Implicit Types (x y w h : number) (v : jsval T).

(** A write at an integer key below [length] keeps the length. *)
Lemma array_length_set_in (a : jsarray T) (i : Z) v :
  0 ≤ i < array_length a →
  array_length (array_set a (Qc_of_Z i) v) = array_length a.
Proof.
  intros Hi. destruct (as_index (Qc_of_Z i)) as [j|] eqn:Hk.
  - apply array_length_set_lt with j; [done|].
    apply as_index_Some in Hk as [Hj%Z2Qc_inj _]. lia.
  - unfold array_length. by rewrite array_elems_set_named.
Qed.

(** With integer dimensions, the index of a valid coordinate pair lies
    below a length that equals [width * height]. *)
Lemma valid_index_below_length (a : jsarray T) w h x y :
  isInteger w = true → isInteger h = true →
  length_invariant a w h → valid_coord w h x y →
  ∃ i, (y * w + x)%Qc = Qc_of_Z i ∧ 0 ≤ i < array_length a.
Proof.
  intros Hw%isInteger_true Hh%isInteger_true Hlen
         (Hx%isInteger_true & Hy%isInteger_true & Hxr & Hyr).
  unfold length_invariant in Hlen.
  revert Hlen Hxr Hyr.
  rewrite Hw, Hh, Hx, Hy, <-Z2Qc_inj_mul, !of_Z_nonneg, !of_Z_lt.
  intros ->%Z2Qc_inj Hxr Hyr.
  exists (toZ y * toZ w + toZ x). split; [apply index_of_Z|].
  by apply index_bound.
Qed.

Lemma Primary_Set_dimensions (this : Primary.FastMap T) x y v :
  Primary.width (snd (Primary.Set_ this x y v)) = Primary.width this ∧
  Primary.height (snd (Primary.Set_ this x y v)) = Primary.height this.
Proof. unfold Primary.Set_. by destruct (negb _). Qed.

Lemma Primary_Set_throws (this : Primary.FastMap T) x y v e :
  fst (Primary.Set_ this x y v) = Throw e →
  snd (Primary.Set_ this x y v) = this.
Proof. unfold Primary.Set_. by destruct (negb _). Qed.

Lemma Primary_Get_state (this : Primary.FastMap T) x y :
  snd (Primary.Get this x y) = this.
Proof. unfold Primary.Get. by destruct (negb _). Qed.

Lemma Primary_Set_length (this : Primary.FastMap T) x y v :
  isInteger (Primary.width this) = true →
  isInteger (Primary.height this) = true →
  isInteger x = true → isInteger y = true →
  length_invariant (Primary.map this) (Primary.width this) (Primary.height this) →
  array_length (Primary.map (snd (Primary.Set_ this x y v)))
    = array_length (Primary.map this).
Proof.
  intros Hw Hh Hx Hy Hlen. unfold Primary.Set_.
  destruct (Primary.CheckIndicesAreValid this x y) eqn:Hc; [|done].
  apply Check_true in Hc as [Hxr Hyr]. simpl.
  destruct (valid_index_below_length (Primary.map this) _ _ x y Hw Hh Hlen)
    as (i & Hi & Hr); [done|].
  unfold Primary.Convert2DTo1D. rewrite Hi. by apply array_length_set_in.
Qed.

Lemma Validated_Set_dimensions (this : Validated.FastMap T) x y v :
  Validated.width (snd (Validated.Set_ this x y v)) = Validated.width this ∧
  Validated.height (snd (Validated.Set_ this x y v)) = Validated.height this.
Proof. unfold Validated.Set_. by destruct (negb _). Qed.

Lemma Validated_Get_state (this : Validated.FastMap T) x y :
  snd (Validated.Get this x y) = this.
Proof. unfold Validated.Get. by destruct (negb _). Qed.

Lemma Validated_Set_length (this : Validated.FastMap T) x y v :
  isInteger (Validated.width this) = true →
  isInteger (Validated.height this) = true →
  length_invariant (Validated.map this) (Validated.width this)
                   (Validated.height this) →
  array_length (Validated.map (snd (Validated.Set_ this x y v)))
    = array_length (Validated.map this).
Proof.
  intros Hw Hh Hlen. unfold Validated.Set_.
  destruct (Validated.checkIndicesAreValid this x y) eqn:Hc; [|done].
  apply Validated_check_true in Hc. simpl.
  destruct (valid_index_below_length (Validated.map this) _ _ x y Hw Hh Hlen)
    as (i & Hi & Hr); [done|].
  unfold Validated.convert2DTo1D. rewrite Hi. by apply array_length_set_in.
Qed.

(** The state a run of calls ends in, by induction on the run. *)
Lemma Primary_run_invariant (cs : list (call T)) (this : Primary.FastMap T) :
  isInteger (Primary.width this) = true →
  isInteger (Primary.height this) = true →
  length_invariant (Primary.map this) (Primary.width this) (Primary.height this) →
  Forall integer_call cs →
  let after := Primary_run this cs in
  Primary.width after = Primary.width this ∧
  Primary.height after = Primary.height this ∧
  array_length (Primary.map after) = array_length (Primary.map this).
Proof.
  revert this. induction cs as [|c cs IH]; intros this Hw Hh Hlen Hcs; [done|].
  apply Forall_cons in Hcs as [Hc Hcs]. simpl.
  assert (Primary.width (Primary_step this c) = Primary.width this ∧
          Primary.height (Primary_step this c) = Primary.height this ∧
          array_length (Primary.map (Primary_step this c))
            = array_length (Primary.map this)) as (Ew & Eh & El).
  { destruct c as [x y|x y v]; simpl.
    - by rewrite Primary_Get_state.
    - destruct Hc. destruct (Primary_Set_dimensions this x y v) as [-> ->].
      by rewrite Primary_Set_length. }
  destruct (IH (Primary_step this c)) as (Ew' & Eh' & El'); try done.
  - by rewrite Ew.
  - by rewrite Eh.
  - unfold length_invariant in *. by rewrite El, Ew, Eh.
  - unfold Primary_run in *. by rewrite Ew', Eh', El', Ew, Eh, El.
Qed.

Lemma Validated_run_invariant (cs : list (call T)) (this : Validated.FastMap T) :
  isInteger (Validated.width this) = true →
  isInteger (Validated.height this) = true →
  length_invariant (Validated.map this) (Validated.width this)
                   (Validated.height this) →
  let after := Validated_run this cs in
  Validated.width after = Validated.width this ∧
  Validated.height after = Validated.height this ∧
  array_length (Validated.map after) = array_length (Validated.map this).
Proof.
  revert this. induction cs as [|c cs IH]; intros this Hw Hh Hlen; [done|].
  simpl.
  assert (Validated.width (Validated_step this c) = Validated.width this ∧
          Validated.height (Validated_step this c) = Validated.height this ∧
          array_length (Validated.map (Validated_step this c))
            = array_length (Validated.map this)) as (Ew & Eh & El).
  { destruct c as [x y|x y v]; simpl.
    - by rewrite Validated_Get_state.
    - destruct (Validated_Set_dimensions this x y v) as [-> ->].
      by rewrite Validated_Set_length. }
  destruct (IH (Validated_step this c)) as (Ew' & Eh' & El'); try done.
  - by rewrite Ew.
  - by rewrite Eh.
  - unfold length_invariant in *. by rewrite El, Ew, Eh.
  - unfold Validated_run in *. by rewrite Ew', Eh', El', Ew, Eh, El.
Qed.

Lemma Validated_constructor_Ok w h (g : Validated.FastMap T) :
  Validated.constructor w h = Ok g →
  isInteger w = true ∧ isInteger h = true ∧
  Validated.width g = w ∧ Validated.height g = h ∧
  length_invariant (Validated.map g) w h.
Proof.
  unfold Validated.constructor.
  destruct (Validated.validateSize w h) as [[]|] eqn:Hv; [|done].
  apply Validated_validateSize_Ok in Hv as (Hw & Hh & _).
  destruct (array_new (w * h)%Qc) as [a|] eqn:Ha; [|done].
  intros [= <-]. simpl. repeat split; try done.
  apply array_new_Ok in Ha as (Hn & [H0 _] & ->).
  unfold length_invariant, array_fill, array_length. simpl.
  rewrite !length_replicate. by rewrite Z2Nat.id, <-Hn.
Qed.
End Length.

(** Width and height survive every run of calls, whatever the arguments. *)
Lemma Primary_run_dimensions {T : Type} (cs : list (call T))
    (this : Primary.FastMap T) :
  Primary.Width (Primary_run this cs) = Primary.Width this ∧
  Primary.Height (Primary_run this cs) = Primary.Height this.
Proof.
  revert this. induction cs as [|c cs IH]; intros this; [done|].
  unfold Primary_run in *. simpl. destruct (IH (Primary_step this c)) as [-> ->].
  destruct c as [x y|x y v]; simpl.
  - by rewrite Primary_Get_state.
  - apply Primary_Set_dimensions.
Qed.

(** C9 (counterexample) — in [src/index.ts] a [Set] at fractional
    coordinates in range can land on an index beyond the storage: on the
    3 by 3 grid, [Set(2.5, 2.5, 7)] writes index [2.5 * 3 + 2.5 = 10] and the
    storage grows from 9 to 11 slots, while width and height stay 3. *)
Lemma fractional_set_grows_storage :
  @Primary.constructor nat (Qc_of_Z 3) (Qc_of_Z 3) = Ok board33 ∧
  let after := Primary_run board33 [CallSet (num 5 2) (num 5 2) (val 7%nat)] in
  fst (Primary.Set_ board33 (num 5 2) (num 5 2) (val 7%nat)) = Ok tt ∧
  array_length (Primary.map board33) = 9 ∧
  array_length (Primary.map after) = 11 ∧
  ¬ length_invariant (Primary.map after) (Primary.Width after) (Primary.Height after).
Proof.
  split; [by vm_compute|]. intros after.
  repeat split; by vm_compute.
Qed.

(** C9 (amended) — a grid leaves the constructor with
    [storage.length == width * height], and no call ever changes what
    [Width()] and [Height()] return.  In the revision with [validateSize]
    the length equation holds after every run of [Get] and [Set] calls; in
    [src/index.ts] it holds after every run of calls with integer
    coordinates on a grid built from integer dimensions. *)
Theorem storage_length_invariant {T : Type} (w h : number) (cs : list (call T)) :
  (∀ g : Primary.FastMap T,
     Primary.constructor w h = Ok g →
     length_invariant (Primary.map g) w h ∧
     Primary.Width (Primary_run g cs) = w ∧
     Primary.Height (Primary_run g cs) = h ∧
     (isInteger w = true → isInteger h = true → Forall integer_call cs →
      length_invariant (Primary.map (Primary_run g cs)) w h)) ∧
  (∀ g : Validated.FastMap T,
     Validated.constructor w h = Ok g →
     length_invariant (Validated.map g) w h ∧
     Validated.Width (Validated_run g cs) = w ∧
     Validated.Height (Validated_run g cs) = h ∧
     length_invariant (Validated.map (Validated_run g cs)) w h).
Proof.
  split.
  - intros g Hg.
    destruct (Primary_constructor_Ok w h g Hg) as (Hw & Hh & Hlen).
    unfold Primary.Width, Primary.Height in Hw, Hh.
    destruct (Primary_run_dimensions cs g) as [Ew Eh].
    rewrite Ew, Eh. unfold Primary.Width, Primary.Height.
    repeat split; try done.
    intros Hiw Hih Hcs.
    destruct (Primary_run_invariant cs g) as (_ & _ & El); try by subst.
    unfold length_invariant in *. by rewrite El.
  - intros g (Hiw & Hih & Hw & Hh & Hlen)%Validated_constructor_Ok.
    destruct (Validated_run_invariant cs g) as (Ew & Eh & El); try by subst.
    unfold Validated.Width, Validated.Height, length_invariant in *.
    by rewrite Ew, Eh, El.
Qed.

Lemma storage_length_invariant_witness :
  length_invariant
    (Primary.map (Primary_run board33
       [CallSet (Qc_of_Z 1) (Qc_of_Z 2) (val 42%nat);
        CallGet (Qc_of_Z 1) (Qc_of_Z 2);
        CallSet (Qc_of_Z 3) (Qc_of_Z 0) (val 42%nat)]))
    (Qc_of_Z 3) (Qc_of_Z 3).
Proof.
  apply (storage_length_invariant (T:=nat) (Qc_of_Z 3) (Qc_of_Z 3)
           [CallSet (Qc_of_Z 1) (Qc_of_Z 2) (val 42%nat);
            CallGet (Qc_of_Z 1) (Qc_of_Z 2);
            CallSet (Qc_of_Z 3) (Qc_of_Z 0) (val 42%nat)]).
  - by vm_compute.
  - by vm_compute.
  - by vm_compute.
  - repeat constructor.
Defined.

(** ** The game-board scenario of the tests *)

Example game_board :
  ∃ board : Primary.FastMap string,
    Primary.constructor (Qc_of_Z 8) (Qc_of_Z 8) = Ok board ∧
    let placed := Primary_run board
      [CallSet (Qc_of_Z 0) (Qc_of_Z 0) (val "rook"%string);
       CallSet (Qc_of_Z 1) (Qc_of_Z 0) (val "knight"%string);
       CallSet (Qc_of_Z 4) (Qc_of_Z 0) (val "king"%string)] in
    fst (Primary.Get placed (Qc_of_Z 1) (Qc_of_Z 0)) = Ok (val "knight"%string) ∧
    let moved := Primary_run placed
      [CallSet (Qc_of_Z 1) (Qc_of_Z 0) null;
       CallSet (Qc_of_Z 2) (Qc_of_Z 2) (val "knight"%string)] in
    fst (Primary.Get moved (Qc_of_Z 2) (Qc_of_Z 2)) = Ok (val "knight"%string) ∧
    fst (Primary.Get moved (Qc_of_Z 1) (Qc_of_Z 0)) = Ok null ∧
    array_length (Primary.map moved) = 64.
Proof. eexists. split; [by vm_compute|]. repeat split; by vm_compute. Qed.


(** * Further properties of the four revisions *)

(** ** Indices of valid coordinates *)

Section ValidIndex.
Context {T : Type}.
Implicit Types (a : jsarray T) (x y w h : number) (v : jsval T).

(** With integer dimensions and a storage as long as [width * height], the
    index of a valid coordinate pair is an array index below the length. *)
Lemma valid_as_index a w h x y :
  isInteger w = true → isInteger h = true → length_invariant a w h →
  array_length a ≤ MAX_ARRAY_LENGTH → valid_coord w h x y →
  as_index (y * w + x)%Qc = Some (Z.to_nat (toZ y * toZ w + toZ x)) ∧
  (Z.to_nat (toZ y * toZ w + toZ x) < length (elems a))%nat.
Proof.
  intros Hw Hh Hlen Hmax Hv.
  destruct (valid_index_below_length a w h x y Hw Hh Hlen Hv) as (i & Hi & Hr).
  assert (i = toZ y * toZ w + toZ x) as <-.
  { destruct Hv as (Hx%isInteger_true & Hy%isInteger_true & _).
    apply isInteger_true in Hw. rewrite Hx, Hy, Hw, index_of_Z in Hi.
    by apply Z2Qc_inj in Hi. }
  rewrite Hi. unfold array_length in *. split; [|lia].
  apply as_index_of_Z. lia.
Qed.

Lemma Validated_valid_index_ne (this : Validated.FastMap T) x y x' y' :
  valid_coord (Validated.width this) (Validated.height this) x y →
  valid_coord (Validated.width this) (Validated.height this) x' y' →
  (x, y) ≠ (x', y') →
  Validated.convert2DTo1D this x y ≠ Validated.convert2DTo1D this x' y'.
Proof.
  intros (_ & Hy & Hx & _) (_ & Hy' & Hx' & _) Hne Heq. apply Hne.
  by destruct (index_inj (Validated.width this) x y x' y') as [-> ->].
Qed.

Lemma Memo_valid_index_ne (this : Memo.FastMap T) x y x' y' :
  valid_coord (Memo.width this) (Memo.height this) x y →
  valid_coord (Memo.width this) (Memo.height this) x' y' →
  (x, y) ≠ (x', y') →
  Memo.convert2DTo1D this x y ≠ Memo.convert2DTo1D this x' y'.
Proof.
  intros (_ & Hy & Hx & _) (_ & Hy' & Hx' & _) Hne Heq. apply Hne.
  by destruct (index_inj (Memo.width this) x y x' y') as [-> ->].
Qed.
End ValidIndex.

(** ** The revision with [validateSize] *)

(** X1 — in the revision with [validateSize], a [Set] at a valid coordinate
    pair succeeds, and a following [Get] at a valid pair returns the value
    written when the pair is the same one and what it returned before the
    write otherwise. *)
Theorem Validated_get_after_set {T : Type} (this : Validated.FastMap T)
    (x y x' y' : number) (v : jsval T) :
  valid_coord (Validated.width this) (Validated.height this) x y →
  valid_coord (Validated.width this) (Validated.height this) x' y' →
  fst (Validated.Set_ this x y v) = Ok tt ∧
  fst (Validated.Get (snd (Validated.Set_ this x y v)) x' y') =
    if decide ((x, y) = (x', y')) then Ok v else fst (Validated.Get this x' y').
Proof.
  intros Hv Hv'.
  pose proof (proj2 (Validated_check_true this x y) Hv) as Hc.
  pose proof (proj2 (Validated_check_true this x' y') Hv') as Hc'.
  unfold Validated.Set_. rewrite Hc. simpl. split; [done|].
  unfold Validated.Get, Validated.checkIndicesAreValid in *. simpl.
  rewrite Hc'. simpl. unfold Validated.convert2DTo1D. simpl.
  case_decide as Hk.
  - injection Hk as <- <-. by rewrite array_get_set_eq.
  - rewrite array_get_set_ne; [done|].
    by apply (Validated_valid_index_ne this).
Qed.

Lemma Validated_get_after_set_witness :
  fst (Validated.Set_ validated33 (Qc_of_Z 1) (Qc_of_Z 2) (val 42%nat)) = Ok tt ∧
  fst (Validated.Get
         (snd (Validated.Set_ validated33 (Qc_of_Z 1) (Qc_of_Z 2) (val 42%nat)))
         (Qc_of_Z 2) (Qc_of_Z 1)) =
    if decide ((Qc_of_Z 1, Qc_of_Z 2) = (Qc_of_Z 2, Qc_of_Z 1)) then Ok (val 42%nat)
    else fst (Validated.Get validated33 (Qc_of_Z 2) (Qc_of_Z 1)).
Proof.
  apply (Validated_get_after_set validated33 (Qc_of_Z 1) (Qc_of_Z 2)
           (Qc_of_Z 2) (Qc_of_Z 1) (val 42%nat));
    repeat split; by vm_compute.
Defined.

(** X2 — once [validateSize] has accepted the dimensions the allocation
    cannot fail: the constructor returns a grid, of [width * height] slots
    all [null], exactly for positive integers whose product is at most
    [2^32 - 1], and in every other case it throws an [Error] of its own,
    never the array's [RangeError]. *)
Theorem Validated_constructor_spec {T : Type} (w h : number) :
  let accepted :=
    isInteger w = true ∧ isInteger h = true ∧ (0 < w)%Qc ∧ (0 < h)%Qc ∧
    (w * h ≤ Qc_of_Z MAX_ARRAY_LENGTH)%Qc in
  (accepted →
   @Validated.constructor T w h =
   Ok (Validated.mkFastMap
         (mkArray (replicate (Z.to_nat (toZ w * toZ h)) null) ∅) w h)) ∧
  (¬ accepted → ∃ msg, @Validated.constructor T w h = Throw (Error msg)).
Proof.
  intros accepted. subst accepted. split.
  - intros Hok. pose proof Hok as (Hw & Hh & Hw0 & Hh0 & Hmax).
    unfold Validated.constructor.
    rewrite (proj2 (Validated_validateSize_Ok w h) Hok).
    apply isInteger_true in Hw, Hh. revert Hw0 Hh0 Hmax.
    rewrite Hw, Hh, <-Z2Qc_inj_mul, !toZ_of_Z, !of_Z_pos, of_Z_le.
    intros Hw0 Hh0 Hmax.
    rewrite array_new_of_Z.
    + unfold array_fill. simpl. by rewrite length_replicate.
    + split; [|done]. apply Z.mul_nonneg_nonneg; lia.
  - intros Hbad. unfold Validated.constructor.
    destruct (Validated.validateSize w h) as [[]|e] eqn:Hv.
    + by apply Validated_validateSize_Ok in Hv.
    + revert Hv. unfold Validated.validateSize.
      repeat (destruct (_ || _) || destruct (gtb _ _)); intros [= <-]; eauto.
Qed.

Lemma Validated_constructor_spec_witness :
  @Validated.constructor nat (Qc_of_Z 3) (Qc_of_Z 3) = Ok validated33.
Proof.
  apply (Validated_constructor_spec (T:=nat) (Qc_of_Z 3) (Qc_of_Z 3)).
  repeat split; by vm_compute.
Defined.

(** A write that keeps a dense storage dense, and what a read finds
    there. *)
Lemma dense_set {T : Type} (a : jsarray T) (w h x y : number) (v : jsval T) :
  dense a w h → valid_coord w h x y → v ≠ undefined →
  dense (array_set a (y * w + x)%Qc v) w h.
Proof.
  intros (Hw & Hh & Hlen & Hmax & Hall) Hv Hdef.
  destruct (valid_as_index a w h x y) as [Hi Hlt]; try done.
  unfold dense, length_invariant, array_length, array_set in *.
  rewrite Hi, bool_decide_eq_true_2 by done. simpl.
  rewrite length_insert. repeat split; try done.
  by apply Forall_insert.
Qed.

Lemma dense_get {T : Type} (a : jsarray T) (w h x y : number) :
  dense a w h → valid_coord w h x y →
  array_get a (y * w + x)%Qc ≠ undefined.
Proof.
  intros (Hw & Hh & Hlen & Hmax & Hall) Hv.
  destruct (valid_as_index a w h x y) as [Hi Hlt]; try done.
  unfold array_get. rewrite Hi.
  destruct (lookup_lt_is_Some_2 _ _ Hlt) as [e He]. rewrite He. simpl.
  by apply (Forall_lookup_1 _ _ _ _ Hall He).
Qed.

Lemma Validated_step_dense {T : Type} (this : Validated.FastMap T) (c : call T) :
  typed_call c →
  dense (Validated.map this) (Validated.width this) (Validated.height this) →
  let after := Validated_step this c in
  Validated.width after = Validated.width this ∧
  Validated.height after = Validated.height this ∧
  dense (Validated.map after) (Validated.width this) (Validated.height this).
Proof.
  intros Hc Hd. destruct c as [x y|x y v]; simpl.
  - by rewrite Validated_Get_state.
  - unfold Validated.Set_.
    destruct (Validated.checkIndicesAreValid this x y) eqn:Hv; [|done].
    apply Validated_check_true in Hv. simpl.
    split; [done|]. split; [done|]. by apply dense_set.
Qed.

Lemma Validated_constructor_dense {T : Type} (w h : number)
    (g : Validated.FastMap T) :
  Validated.constructor w h = Ok g →
  dense (Validated.map g) (Validated.width g) (Validated.height g).
Proof.
  unfold Validated.constructor.
  destruct (Validated.validateSize w h) as [[]|] eqn:Hv; [|done].
  apply Validated_validateSize_Ok in Hv as (Hw & Hh & _).
  destruct (array_new (w * h)%Qc) as [a|] eqn:Ha; [|done].
  intros [= <-]. simpl.
  apply array_new_Ok in Ha as (Hn & [H0 H1] & ->).
  unfold dense, length_invariant, array_fill, array_length. simpl.
  rewrite !length_replicate, Z2Nat.id, <-Hn by done.
  repeat split; try done. by apply Forall_replicate.
Qed.

(** X3 — in the revision with [validateSize], [Get] keeps the promise of its
    return type [T | null]: on a grid that came from the constructor and
    went through any run of calls whose [Set] values are not [undefined],
    a [Get] that returns never returns [undefined]. *)
Theorem Validated_get_never_undefined {T : Type} (w h : number)
    (g : Validated.FastMap T) (cs : list (call T)) (x y : number) (r : jsval T) :
  Validated.constructor w h = Ok g → Forall typed_call cs →
  fst (Validated.Get (Validated_run g cs) x y) = Ok r → r ≠ undefined.
Proof.
  intros Hg Hcs.
  pose proof (Validated_constructor_dense w h g Hg) as Hd.
  clear Hg. revert g Hd. induction Hcs as [|c cs Hc Hcs IH]; intros g Hd.
  - simpl. unfold Validated.Get.
    destruct (Validated.checkIndicesAreValid g x y) eqn:Hv; [|done].
    apply Validated_check_true in Hv. simpl. intros [= <-].
    by apply (dense_get _ _ _ _ _ Hd).
  - simpl. apply IH.
    destruct (Validated_step_dense g c Hc Hd) as (-> & -> & Hd'). done.
Qed.

Lemma Validated_get_never_undefined_witness :
  val 42%nat ≠ undefined.
Proof.
  apply (Validated_get_never_undefined (Qc_of_Z 3) (Qc_of_Z 3) validated33
           [CallSet (Qc_of_Z 1) (Qc_of_Z 2) (val 42%nat); CallGet (Qc_of_Z 0) (Qc_of_Z 0)]
           (Qc_of_Z 1) (Qc_of_Z 2) (val 42%nat)).
  - by vm_compute.
  - repeat constructor. done.
  - by vm_compute.
Defined.

(** ** [src/index.ts] beyond the integer coordinates *)

(** X4 — in [src/index.ts], on a grid with integer dimensions whose storage
    has [width * height] slots, a [Set] at a valid coordinate pair
    overwrites exactly the slot [y * width + x] and touches nothing else:
    no other slot, no other property, neither dimension. *)
Theorem Primary_set_one_slot {T : Type} (this : Primary.FastMap T)
    (x y : number) (v : jsval T) :
  let w := Primary.width this in
  let h := Primary.height this in
  let i := Z.to_nat (toZ y * toZ w + toZ x) in
  isInteger w = true → isInteger h = true →
  length_invariant (Primary.map this) w h →
  array_length (Primary.map this) ≤ MAX_ARRAY_LENGTH →
  valid_coord w h x y →
  (i < length (elems (Primary.map this)))%nat ∧
  Primary.Set_ this x y v =
  (Ok tt,
   Primary.mkFastMap
     (mkArray (<[i := v]> (elems (Primary.map this))) (named (Primary.map this)))
     w h).
Proof.
  intros w h i Hw Hh Hlen Hmax Hv.
  destruct (valid_as_index (Primary.map this) w h x y) as [Hi Hlt]; try done.
  split; [done|].
  rewrite Set_checked by by apply valid_coord_Check.
  unfold Primary.Convert2DTo1D, array_set. fold w.
  by rewrite Hi, bool_decide_eq_true_2.
Qed.

Lemma Primary_set_one_slot_witness :
  (5 < length (elems (Primary.map board33)))%nat ∧
  Primary.Set_ board33 (Qc_of_Z 2) (Qc_of_Z 1) (val 7%nat) =
  (Ok tt,
   Primary.mkFastMap
     (mkArray (<[5%nat := val 7%nat]> (elems (Primary.map board33)))
              (named (Primary.map board33)))
     (Qc_of_Z 3) (Qc_of_Z 3)).
Proof.
  apply (Primary_set_one_slot board33 (Qc_of_Z 2) (Qc_of_Z 1) (val 7%nat)).
  - by vm_compute.
  - by vm_compute.
  - apply Qc_is_canon. by vm_compute.
  - by vm_compute.
  - repeat split; by vm_compute.
Defined.

(** X5 — in [src/index.ts] the round trip does not need integers: for every
    coordinate pair that passes the range check, fractional ones included,
    [Set(x, y, v)] succeeds and a following [Get(x, y)] returns [v]; when
    the index [y * width + x] is computed exactly and is not an integer,
    the value is kept as an extra property and the slots and the length of
    the storage stay as they were. *)
Theorem Primary_round_trip_in_range {T : Type} (this : Primary.FastMap T)
    (x y : number) (v : jsval T) :
  (0 ≤ x < Primary.width this)%Qc → (0 ≤ y < Primary.height this)%Qc →
  let after := snd (Primary.Set_ this x y v) in
  fst (Primary.Set_ this x y v) = Ok tt ∧
  Primary.Get after x y = (Ok v, after) ∧
  (representable (y * Primary.width this)%Qc →
   representable (y * Primary.width this + x)%Qc →
   isInteger (Primary.Convert2DTo1D this x y) = false →
   elems (Primary.map after) = elems (Primary.map this)).
Proof.
  intros Hx Hy after. subst after.
  assert (Primary.CheckIndicesAreValid this x y = true) as Hc
    by by apply Check_true.
  rewrite Set_checked by done. simpl. split; [done|]. split.
  - rewrite Get_checked by done. simpl.
    unfold Primary.Convert2DTo1D. simpl. by rewrite array_get_set_eq.
  - intros _ _ Hfrac. apply array_elems_set_named.
    unfold as_index. by rewrite Hfrac.
Qed.

Lemma Primary_round_trip_in_range_witness :
  let after := snd (Primary.Set_ board33 (num 1 2) (Qc_of_Z 0) (val 7%nat)) in
  fst (Primary.Set_ board33 (num 1 2) (Qc_of_Z 0) (val 7%nat)) = Ok tt ∧
  Primary.Get after (num 1 2) (Qc_of_Z 0) = (Ok (val 7%nat), after) ∧
  elems (Primary.map after) = elems (Primary.map board33).
Proof.
  destruct (Primary_round_trip_in_range board33 (num 1 2) (Qc_of_Z 0) (val 7%nat))
    as (H1 & H2 & H3); [split; by vm_compute|split; by vm_compute|].
  split; [exact H1|]. split; [exact H2|]. apply H3.
  - exists 0, 0. split; [by vm_compute|]. split; [lia|].
    apply Qc_is_canon. by vm_compute.
  - exists 1, (-1). split; [by vm_compute|]. split; [lia|].
    apply Qc_is_canon. by vm_compute.
  - by vm_compute.
Defined.

(** X6 — on a grid fresh from the constructor of [src/index.ts], a [Get] at
    a coordinate pair in range whose index [y * width + x] is computed
    exactly and is not an integer returns [undefined], not the absent
    marker [null] the slots were filled with. *)
Theorem Primary_fresh_fraction_undefined {T : Type} (w h : number)
    (g : Primary.FastMap T) (x y : number) :
  Primary.constructor w h = Ok g →
  (0 ≤ x < w)%Qc → (0 ≤ y < h)%Qc →
  representable (y * w)%Qc → representable (y * w + x)%Qc →
  isInteger (y * w + x)%Qc = false →
  Primary.Get g x y = (Ok undefined, g).
Proof.
  unfold Primary.constructor.
  destruct (array_new (w * h)%Qc) as [a|] eqn:Ha; [|done].
  apply array_new_Ok in Ha as (_ & _ & ->).
  intros [= <-] Hx Hy _ _ Hfrac.
  rewrite Get_checked by by apply Check_true.
  unfold Primary.Convert2DTo1D, array_get, as_index. simpl.
  by rewrite Hfrac.
Qed.

Lemma Primary_fresh_fraction_undefined_witness :
  Primary.Get board33 (num 1 2) (Qc_of_Z 0) = (Ok undefined, board33).
Proof.
  apply (Primary_fresh_fraction_undefined (Qc_of_Z 3) (Qc_of_Z 3) board33
           (num 1 2) (Qc_of_Z 0)).
  - by vm_compute.
  - split; by vm_compute.
  - split; by vm_compute.
  - exists 0, 0. split; [by vm_compute|]. split; [lia|].
    apply Qc_is_canon. by vm_compute.
  - exists 1, (-1). split; [by vm_compute|]. split; [lia|].
    apply Qc_is_canon. by vm_compute.
  - by vm_compute.
Defined.

Lemma half_plus_half : (num 1 2 + num 1 2)%Qc = 1%Qc.
Proof. apply Qc_is_canon. by vm_compute. Qed.

Lemma half_pos : (0 < num 1 2)%Qc.
Proof. by vm_compute. Qed.

Lemma half_lt_one : (num 1 2 < 1)%Qc.
Proof. by vm_compute. Qed.

(** X7 — in [src/index.ts] two different coordinate pairs in range can name
    the same slot once fractions are used: on every grid with a positive
    width and a height above 1, provided the width is a double whose half
    is one too (it does not underflow), [Set(width / 2, 0.5, v)] is
    accepted and overwrites what [Get(0, 1)] returns. *)
Theorem Primary_fraction_alias {T : Type} (this : Primary.FastMap T)
    (v : jsval T) :
  representable (Primary.width this) →
  representable (Primary.width this * num 1 2)%Qc →
  (0 < Primary.width this)%Qc → (1 < Primary.height this)%Qc →
  let x := (Primary.width this * num 1 2)%Qc in
  let y := num 1 2 in
  (x, y) ≠ (0%Qc, 1%Qc) ∧
  fst (Primary.Set_ this x y v) = Ok tt ∧
  fst (Primary.Get (snd (Primary.Set_ this x y v)) 0%Qc 1%Qc) = Ok v.
Proof.
  intros _ _ Hw Hh x y.
  assert (Primary.CheckIndicesAreValid this x y = true) as Hc.
  { apply Check_true. subst x y. repeat split.
    - apply Qcmult_nonneg_nonneg; apply Qclt_le_weak; [done|apply half_pos].
    - rewrite <-(Qcmult_1_r (Primary.width this)) at 2.
      apply Qcmult_lt_mono_pos_l; [done|apply half_lt_one].
    - apply Qclt_le_weak, half_pos.
    - by apply Qclt_trans with 1%Qc; [apply half_lt_one|]. }
  assert (Primary.CheckIndicesAreValid this 0%Qc 1%Qc = true) as Hc'.
  { apply Check_true. repeat split; by try done. }
  split; [|split].
  - intros Heq. apply (f_equal snd) in Heq. by vm_compute in Heq.
  - by rewrite Set_checked.
  - rewrite Get_after_Set by done. rewrite decide_True; [done|].
    unfold Primary.Convert2DTo1D. subst x y.
    rewrite (Qcmult_comm (Primary.width this)), <-Qcmult_plus_distr_l.
    rewrite half_plus_half. ring.
Qed.

Lemma Primary_fraction_alias_witness :
  (num 3 2, num 1 2) ≠ (0%Qc, 1%Qc) ∧
  fst (Primary.Get (snd (Primary.Set_ board33 (num 3 2) (num 1 2) (val 7%nat)))
         0%Qc 1%Qc) = Ok (val 7%nat).
Proof.
  destruct (Primary_fraction_alias board33 (val 7%nat)) as (H1 & _ & H2).
  { exists 3, 0. split; [by vm_compute|]. split; [lia|].
    apply Qc_is_canon. by vm_compute. }
  { exists 3, (-1). split; [by vm_compute|]. split; [lia|].
    apply Qc_is_canon. by vm_compute. }
  { by vm_compute. }
  { by vm_compute. }
  split.
  - intros Heq. apply (f_equal snd) in Heq. by vm_compute in Heq.
  - assert ((Primary.width board33 * num 1 2)%Qc = num 3 2) as <-; [|exact H2].
    apply Qc_is_canon. by vm_compute.
Defined.

(** X8 — the constructor of [src/index.ts] accepts a zero width with any
    finite height, and a zero height with any finite width; the grid it
    returns has no slot and rejects every [Get] and every [Set], at all
    finite coordinates. *)
Theorem Primary_empty_grid {T : Type} (d : number) :
  (∃ g : Primary.FastMap T,
     Primary.constructor 0%Qc d = Ok g ∧ array_length (Primary.map g) = 0 ∧
     ∀ x y v,
       Primary.Get g x y = (Throw (Error "Index out of bounds"), g) ∧
       Primary.Set_ g x y v = (Throw (Error "Index out of bounds"), g)) ∧
  (∃ g : Primary.FastMap T,
     Primary.constructor d 0%Qc = Ok g ∧ array_length (Primary.map g) = 0 ∧
     ∀ x y v,
       Primary.Get g x y = (Throw (Error "Index out of bounds"), g) ∧
       Primary.Set_ g x y v = (Throw (Error "Index out of bounds"), g)).
Proof.
  split; eexists; unfold Primary.constructor;
    rewrite ?Qcmult_0_l, ?Qcmult_0_r;
    (split; [by vm_compute|]); (split; [done|]); intros x y v.
  - assert (Primary.CheckIndicesAreValid
              (Primary.mkFastMap (T:=T) (array_fill (mkArray [] ∅) null) 0%Qc d) x y
            = false) as Hc.
    { apply Check_false. simpl.
      destruct (Qclt_le_dec x 0); [by left|by right; left]. }
    by rewrite Get_rejected, Set_rejected.
  - assert (Primary.CheckIndicesAreValid
              (Primary.mkFastMap (T:=T) (array_fill (mkArray [] ∅) null) d 0%Qc) x y
            = false) as Hc.
    { apply Check_false. simpl.
      destruct (Qclt_le_dec y 0); [by right; right; left|by right; right; right]. }
    by rewrite Get_rejected, Set_rejected.
Qed.

(** ** The revision with unchecked accessors *)

(** X9 — in the revision with unchecked accessors the storage is never
    filled, so the absent marker of a new grid is [undefined]: [Get]
    returns [undefined] at every valid coordinate pair, and [GetUnsafe]
    returns [undefined] at every coordinate pair whatsoever. *)
Theorem Unsafe_fresh_undefined {T : Type} (w h : number)
    (g : Unsafe.FastMap T) (x y : number) :
  Unsafe.constructor w h = Ok g →
  Unsafe.GetUnsafe g x y = (Ok undefined, g) ∧
  (valid_coord w h x y → Unsafe.Get g x y = (Ok undefined, g)).
Proof.
  unfold Unsafe.constructor.
  destruct (Unsafe.validateSize w h) as [[]|]; [|done].
  destruct (array_new (w * h)%Qc) as [a|] eqn:Ha; [|done].
  apply array_new_Ok in Ha as (_ & _ & ->). intros [= <-].
  assert (∀ k, array_get (T:=T)
                 (mkArray (replicate (Z.to_nat (toZ (w * h)%Qc)) undefined) ∅) k
               = undefined) as Hget.
  { intros k. unfold array_get. destruct (as_index k) as [i|]; simpl.
    - destruct (replicate _ _ !! i) as [e|] eqn:He; [|done].
      by apply lookup_replicate in He as [-> _].
    - by rewrite lookup_empty. }
  split.
  - unfold Unsafe.GetUnsafe. simpl. by rewrite Hget.
  - intros Hv. unfold Unsafe.Get.
    rewrite (proj2 (Unsafe_check_true _ x y)) by done. simpl.
    unfold Unsafe.convert2DTo1D. simpl. by rewrite Hget.
Qed.

Lemma Unsafe_fresh_undefined_witness :
  Unsafe.GetUnsafe unsafe33 (Qc_of_Z 7) (Qc_of_Z (-2)) = (Ok undefined, unsafe33) ∧
  Unsafe.Get unsafe33 (Qc_of_Z 2) (Qc_of_Z 1) = (Ok undefined, unsafe33).
Proof.
  split.
  - apply (Unsafe_fresh_undefined (Qc_of_Z 3) (Qc_of_Z 3) unsafe33
             (Qc_of_Z 7) (Qc_of_Z (-2))).
    by vm_compute.
  - apply (Unsafe_fresh_undefined (Qc_of_Z 3) (Qc_of_Z 3) unsafe33
             (Qc_of_Z 2) (Qc_of_Z 1)).
    + by vm_compute.
    + repeat split; by vm_compute.
Defined.

(** X10 — on integers of magnitude below [2^26], for the width and the
    coordinates, the unchecked accessors address the storage by the linear
    index alone and never throw: after [SetUnsafe(x, y, v)],
    [GetUnsafe(x', y')] returns [v] when [y' * width + x'] equals
    [y * width + x] and what it returned before otherwise.  In particular a
    column one width too far is the same column of the next row. *)
Theorem Unsafe_addressing {T : Type} (this : Unsafe.FastMap T)
    (x y x' y' : number) (v : jsval T) :
  let w := Unsafe.width this in
  small_integer w → small_integer x → small_integer y →
  small_integer x' → small_integer y' →
  fst (Unsafe.SetUnsafe this x y v) = Ok tt ∧
  fst (Unsafe.GetUnsafe (snd (Unsafe.SetUnsafe this x y v)) x' y') =
    (if decide ((y * w + x)%Qc = (y' * w + x')%Qc) then Ok v
     else fst (Unsafe.GetUnsafe this x' y')) ∧
  Unsafe.GetUnsafe this (x + w)%Qc y = Unsafe.GetUnsafe this x (y + 1)%Qc ∧
  Unsafe.SetUnsafe this (x + w)%Qc y v = Unsafe.SetUnsafe this x (y + 1)%Qc v.
Proof.
  intros w _ _ _ _ _. unfold Unsafe.SetUnsafe, Unsafe.GetUnsafe. simpl. fold w.
  split; [done|]. split.
  - case_decide as Hk.
    + by rewrite <-Hk, array_get_set_eq.
    + by rewrite array_get_set_ne.
  - assert ((y * w + (x + w))%Qc = ((y + 1) * w + x)%Qc) as -> by ring.
    done.
Qed.

Lemma Unsafe_addressing_witness :
  fst (Unsafe.GetUnsafe
         (snd (Unsafe.SetUnsafe unsafe33 (Qc_of_Z 0) (Qc_of_Z 1) (val 5%nat)))
         (Qc_of_Z 3) (Qc_of_Z 0)) = Ok (val 5%nat) ∧
  Unsafe.SetUnsafe unsafe33 (Qc_of_Z 0 + Qc_of_Z 3)%Qc (Qc_of_Z 1) (val 5%nat)
    = Unsafe.SetUnsafe unsafe33 (Qc_of_Z 0) (Qc_of_Z 1 + 1)%Qc (val 5%nat).
Proof.
  destruct (Unsafe_addressing unsafe33 (Qc_of_Z 0) (Qc_of_Z 1) (Qc_of_Z 3) (Qc_of_Z 0)
              (val 5%nat)) as (_ & H2 & _ & H4).
  1-5: (split; by vm_compute).
  split; [|exact H4].
  rewrite H2. rewrite decide_True; [done|]. apply Qc_is_canon. by vm_compute.
Defined.

(** X11 — what [SetUnsafe] does to the length of the storage, for a width
    and coordinates that are integers of magnitude below [2^26]: with
    [i = y * width + x], the length becomes [max length (i + 1)] when [i] is
    an array index, so a write beyond the last slot grows the storage, and
    the length is unchanged when [i] is negative or not below [2^32 - 1]. *)
Theorem Unsafe_set_length {T : Type} (this : Unsafe.FastMap T)
    (x y : number) (v : jsval T) :
  small_integer x → small_integer y → small_integer (Unsafe.width this) →
  let i := toZ y * toZ (Unsafe.width this) + toZ x in
  let len := array_length (Unsafe.map this) in
  array_length (Unsafe.map (snd (Unsafe.SetUnsafe this x y v))) =
    if decide (0 ≤ i < MAX_ARRAY_LENGTH) then Z.max len (i + 1) else len.
Proof.
  intros [Hx%isInteger_true _] [Hy%isInteger_true _] [Hw%isInteger_true _] i len.
  unfold Unsafe.SetUnsafe. simpl.
  rewrite Hx, Hy, Hw, index_of_Z. fold i.
  case_decide as Hi.
  - pose proof (as_index_of_Z i Hi) as Hk.
    destruct (decide (i < len)) as [Hlt|Hge].
    + rewrite (array_length_set_lt _ _ _ _ Hk) by (subst len; lia).
      subst len. lia.
    + rewrite (array_length_set_ge _ _ _ _ Hk) by (subst len; lia).
      subst len. lia.
  - destruct (as_index (Qc_of_Z i)) as [j|] eqn:Hk.
    + apply as_index_Some in Hk as [Hj%Z2Qc_inj Hjm]. lia.
    + unfold array_length. by rewrite array_elems_set_named.
Qed.

Lemma Unsafe_set_length_witness :
  array_length (Unsafe.map (snd (Unsafe.SetUnsafe unsafe33 (Qc_of_Z 0) (Qc_of_Z 5)
                                   (val 5%nat)))) =
    if decide (0 ≤ 15 < MAX_ARRAY_LENGTH) then Z.max 9 (15 + 1) else 9.
Proof.
  apply (Unsafe_set_length unsafe33 (Qc_of_Z 0) (Qc_of_Z 5) (val 5%nat));
    split; by vm_compute.
Defined.

(** ** The revision with the cache *)

Section MemoFacts.
Context {T : Type}.
Variable truthy : T → bool.
Implicit Types (this : Memo.FastMap T) (x y : number) (v : jsval T).

Lemma Memo_Set_valid this x y v :
  valid_coord (Memo.width this) (Memo.height this) x y →
  Memo.Set_ this x y v =
  (Ok tt,
   Memo.mkFastMap (array_set (Memo.map this) (Memo.convert2DTo1D this x y) v)
                  (Memo.width this) (Memo.height this)
                  (delete (x, y) (Memo.memoCache this))).
Proof.
  intros Hv%Memo_check_true. unfold Memo.Set_. by rewrite Hv.
Qed.

(** The value a [Get] at a valid pair returns, by the state of the cache. *)
Lemma Memo_Get_valid this x y :
  valid_coord (Memo.width this) (Memo.height this) x y →
  fst (Memo.Get truthy this x y) =
  match Memo.memoCache this !! (x, y) with
  | Some c => Ok (Memo.or_null truthy c)
  | None => Ok (array_get (Memo.map this) (Memo.convert2DTo1D this x y))
  end.
Proof.
  intros Hv%Memo_check_true. unfold Memo.Get.
  destruct (Memo.memoCache this !! (x, y)); [done|]. by rewrite Hv.
Qed.

Lemma cache_coherent_Get this x y :
  cache_coherent this → cache_coherent (snd (Memo.Get truthy this x y)).
Proof.
  intros Hc. unfold Memo.Get.
  destruct (Memo.memoCache this !! (x, y)); [done|].
  destruct (Memo.checkIndicesAreValid this x y) eqn:Hv; [|done].
  intros x' y' c. simpl. rewrite lookup_insert.
  case_decide as Hk.
  - injection Hk as <- <-. intros [= <-]. split; [|done].
    by apply Memo_check_true.
  - apply Hc.
Qed.

Lemma cache_coherent_Set this x y v :
  cache_coherent this → cache_coherent (snd (Memo.Set_ this x y v)).
Proof.
  intros Hc. unfold Memo.Set_.
  destruct (Memo.checkIndicesAreValid this x y) eqn:Hv; [|done].
  apply Memo_check_true in Hv.
  intros x' y' c. simpl. rewrite lookup_delete.
  case_decide as Hk; [done|]. intros Hl.
  destruct (Hc x' y' c Hl) as [Hv' ->]. split; [done|].
  unfold Memo.convert2DTo1D. simpl.
  rewrite array_get_set_ne; [done|].
  by apply (Memo_valid_index_ne this).
Qed.

Lemma cache_coherent_constructor (w h : number) (g : Memo.FastMap T) :
  Memo.constructor w h = Ok g → cache_coherent g.
Proof.
  unfold Memo.constructor.
  destruct (Memo.validateSize w h) as [[]|]; [|done].
  destruct (array_new _); [|done].
  intros [= <-] x y c. simpl. by rewrite lookup_empty.
Qed.

Lemma cache_coherent_run (cs : list (call T)) this :
  cache_coherent this → cache_coherent (Memo_run truthy this cs).
Proof.
  revert this. induction cs as [|c cs IH]; intros this Hc; [done|].
  simpl. apply IH. destruct c as [x y|x y v]; simpl.
  - by apply cache_coherent_Get.
  - by apply cache_coherent_Set.
Qed.
End MemoFacts.

(** X12 — in the revision with the cache, [Set] invalidates what it must: a
    [Set] at a valid coordinate pair succeeds, and the next [Get] at a valid
    pair returns the value written when the pair is the same one and what
    it returned before the write otherwise, whatever the cache held. *)
Theorem Memo_get_after_set {T : Type} (truthy : T → bool)
    (this : Memo.FastMap T) (x y x' y' : number) (v : jsval T) :
  valid_coord (Memo.width this) (Memo.height this) x y →
  valid_coord (Memo.width this) (Memo.height this) x' y' →
  fst (Memo.Set_ this x y v) = Ok tt ∧
  fst (Memo.Get truthy (snd (Memo.Set_ this x y v)) x' y') =
    if decide ((x, y) = (x', y')) then Ok v
    else fst (Memo.Get truthy this x' y').
Proof.
  intros Hv Hv'. rewrite Memo_Set_valid by done. simpl. split; [done|].
  rewrite !Memo_Get_valid by done. simpl.
  rewrite lookup_delete. unfold Memo.convert2DTo1D. simpl.
  case_decide as Hk.
  - injection Hk as <- <-. by rewrite array_get_set_eq.
  - destruct (Memo.memoCache this !! (x', y')); [done|].
    rewrite array_get_set_ne; [done|].
    by apply (Memo_valid_index_ne this).
Qed.

Lemma Memo_get_after_set_witness :
  fst (Memo.Set_ memo11 (Qc_of_Z 0) (Qc_of_Z 0) (val 3%nat)) = Ok tt ∧
  fst (Memo.Get nat_truthy (snd (Memo.Set_ memo11 (Qc_of_Z 0) (Qc_of_Z 0) (val 3%nat)))
         (Qc_of_Z 0) (Qc_of_Z 0)) =
    if decide ((Qc_of_Z 0, Qc_of_Z 0) = (Qc_of_Z 0, Qc_of_Z 0)) then Ok (val 3%nat)
    else fst (Memo.Get nat_truthy memo11 (Qc_of_Z 0) (Qc_of_Z 0)).
Proof.
  apply (Memo_get_after_set nat_truthy memo11 (Qc_of_Z 0) (Qc_of_Z 0)
           (Qc_of_Z 0) (Qc_of_Z 0) (val 3%nat));
    repeat split; by vm_compute.
Defined.

(** X13 — the cache is never stale: on a grid that came from the
    constructor and went through any run of [Get] and [Set] calls, every
    cache entry sits under a valid coordinate pair and equals the slot of
    the storage at that pair's index; so a [Get] at a valid pair returns the
    stored value, except that a cached falsy value is returned as [null]. *)
Theorem Memo_cache_never_stale {T : Type} (truthy : T → bool) (w h : number)
    (g : Memo.FastMap T) (cs : list (call T)) (x y : number) :
  Memo.constructor w h = Ok g →
  let this := Memo_run truthy g cs in
  let stored := array_get (Memo.map this) (Memo.convert2DTo1D this x y) in
  cache_coherent this ∧
  (valid_coord (Memo.width this) (Memo.height this) x y →
   fst (Memo.Get truthy this x y) = Ok stored ∨
   (Memo.to_boolean truthy stored = false ∧
    fst (Memo.Get truthy this x y) = Ok null)).
Proof.
  intros Hg this stored.
  assert (cache_coherent this) as Hc.
  { apply cache_coherent_run. by apply (cache_coherent_constructor w h). }
  split; [done|]. intros Hv. rewrite (Memo_Get_valid truthy) by done.
  destruct (Memo.memoCache this !! (x, y)) as [c|] eqn:Hl; [|by left].
  destruct (Hc x y c Hl) as [_ ->]. fold stored. unfold Memo.or_null.
  destruct (Memo.to_boolean truthy stored); [by left|by right].
Qed.

Lemma Memo_cache_never_stale_witness :
  let this := Memo_run nat_truthy memo11
                [CallSet (Qc_of_Z 0) (Qc_of_Z 0) (val 3%nat);
                 CallGet (Qc_of_Z 0) (Qc_of_Z 0)] in
  cache_coherent this ∧
  Memo.memoCache this !! (Qc_of_Z 0, Qc_of_Z 0) = Some (val 3%nat).
Proof.
  split.
  - apply (Memo_cache_never_stale nat_truthy (Qc_of_Z 1) (Qc_of_Z 1) memo11
             [CallSet (Qc_of_Z 0) (Qc_of_Z 0) (val 3%nat);
              CallGet (Qc_of_Z 0) (Qc_of_Z 0)] (Qc_of_Z 0) (Qc_of_Z 0)).
    by vm_compute.
  - by vm_compute.
Defined.

(** X14 — the cache answers with [cached || null], so a falsy value does not
    survive a second read: in every state, after [Set(x, y, t)] at a valid
    coordinate pair with [t] falsy, the first [Get(x, y)] returns [t] and
    the second returns [null], although the storage still holds [t]. *)
Theorem Memo_falsy_read_twice {T : Type} (truthy : T → bool)
    (this : Memo.FastMap T) (x y : number) (t : T) :
  valid_coord (Memo.width this) (Memo.height this) x y → truthy t = false →
  let s1 := snd (Memo.Set_ this x y (val t)) in
  let s2 := snd (Memo.Get truthy s1 x y) in
  fst (Memo.Get truthy s1 x y) = Ok (val t) ∧
  fst (Memo.Get truthy s2 x y) = Ok null ∧
  array_get (Memo.map s2) (Memo.convert2DTo1D s2 x y) = val t.
Proof.
  intros Hv Ht s1 s2. subst s2 s1.
  pose proof (proj2 (Memo_check_true this x y) Hv) as Hc.
  rewrite Memo_Set_valid by done. simpl.
  unfold Memo.Get. simpl. rewrite lookup_delete_eq.
  unfold Memo.checkIndicesAreValid in *. simpl. rewrite Hc. simpl.
  rewrite lookup_insert_eq. unfold Memo.convert2DTo1D. simpl.
  rewrite array_get_set_eq. unfold Memo.or_null. simpl. by rewrite Ht.
Qed.

Lemma Memo_falsy_read_twice_witness :
  let s1 := snd (Memo.Set_ memo11 (Qc_of_Z 0) (Qc_of_Z 0) (val 0%nat)) in
  let s2 := snd (Memo.Get nat_truthy s1 (Qc_of_Z 0) (Qc_of_Z 0)) in
  fst (Memo.Get nat_truthy s1 (Qc_of_Z 0) (Qc_of_Z 0)) = Ok (val 0%nat) ∧
  fst (Memo.Get nat_truthy s2 (Qc_of_Z 0) (Qc_of_Z 0)) = Ok null ∧
  array_get (Memo.map s2) (Memo.convert2DTo1D s2 (Qc_of_Z 0) (Qc_of_Z 0)) = val 0%nat.
Proof.
  apply (Memo_falsy_read_twice nat_truthy memo11 (Qc_of_Z 0) (Qc_of_Z 0) 0%nat).
  - repeat split; by vm_compute.
  - done.
Defined.

(** ** The grid as a finite map *)

(** The slot of a valid pair after one call, in the revision with
    [validateSize]. *)
Lemma Validated_step_slot {T : Type} (this : Validated.FastMap T) (c : call T)
    (x y : number) :
  let w := Validated.width this in
  let h := Validated.height this in
  valid_coord w h x y →
  Validated.width (Validated_step this c) = w ∧
  Validated.height (Validated_step this c) = h ∧
  array_get (Validated.map (Validated_step this c)) (y * w + x)%Qc =
    match c with
    | CallGet _ _ => array_get (Validated.map this) (y * w + x)%Qc
    | CallSet x0 y0 v =>
        if decide (valid_coord w h x0 y0 ∧ (x0, y0) = (x, y)) then v
        else array_get (Validated.map this) (y * w + x)%Qc
    end.
Proof.
  intros w h Hv. destruct c as [x0 y0|x0 y0 v]; simpl.
  - by rewrite Validated_Get_state.
  - unfold Validated.Set_.
    destruct (Validated.checkIndicesAreValid this x0 y0) eqn:Hc; simpl.
    + apply Validated_check_true in Hc. fold w h in Hc.
      split; [done|]. split; [done|].
      unfold Validated.convert2DTo1D. fold w.
      case_decide as Hk.
      * destruct Hk as [_ [= -> ->]]. by rewrite array_get_set_eq.
      * rewrite array_get_set_ne; [done|].
        apply (Validated_valid_index_ne this); try done.
        intros Heq. apply Hk. by split.
    + split; [done|]. split; [done|].
      rewrite decide_False; [done|]. intros [Hv0 _].
      apply Validated_check_true in Hv0. congruence.
Qed.

Lemma Validated_run_slot {T : Type} (cs : list (call T))
    (this : Validated.FastMap T) (x y : number) :
  let w := Validated.width this in
  let h := Validated.height this in
  valid_coord w h x y →
  Validated.width (Validated_run this cs) = w ∧
  Validated.height (Validated_run this cs) = h ∧
  array_get (Validated.map (Validated_run this cs)) (y * w + x)%Qc =
    last_written w h cs x y (array_get (Validated.map this) (y * w + x)%Qc).
Proof.
  revert this. induction cs as [|c cs IH]; intros this w h Hv; [done|].
  destruct (Validated_step_slot this c x y Hv) as (Ew & Eh & Es).
  fold w h in Ew, Eh, Es.
  destruct (IH (Validated_step this c)) as (Ew' & Eh' & Es').
  { by rewrite Ew, Eh. }
  rewrite Ew in Ew', Es'. rewrite Eh in Eh', Es'. rewrite Es in Es'.
  unfold Validated_run in *. simpl. rewrite Ew', Eh', Es'.
  split; [done|]. split; [done|]. by destruct c.
Qed.

(** Every slot of a new grid holds [null]. *)
Lemma Validated_constructor_slot {T : Type} (w h : number)
    (g : Validated.FastMap T) (x y : number) :
  Validated.constructor w h = Ok g → valid_coord w h x y →
  array_get (Validated.map g) (y * w + x)%Qc = null.
Proof.
  intros Hg Hv.
  destruct (Validated_constructor_Ok w h g Hg) as (_ & _ & Hw & Hh & _).
  destruct (Validated_constructor_dense w h g Hg) as (Hiw & Hih & Hlen & Hmax & _).
  rewrite Hw, Hh in *.
  destruct (valid_as_index _ w h x y Hiw Hih Hlen Hmax Hv) as [Hi Hlt].
  revert Hg Hlt. unfold Validated.constructor.
  destruct (Validated.validateSize w h) as [[]|]; [|done].
  destruct (array_new (w * h)%Qc) as [a|]; [|done].
  intros [= <-]. unfold array_get, array_fill. simpl. rewrite Hi.
  rewrite length_replicate. intros Hlt. by rewrite lookup_replicate_2.
Qed.

(** X15 — the grid of the revision with [validateSize] behaves as a finite
    map from the valid coordinate pairs: after construction and any run of
    [Get] and [Set] calls, [Get(x, y)] at a valid pair returns the value of
    the last accepted [Set] at that pair, and [null] when there was none;
    rejected calls and calls at other pairs leave it alone. *)
Theorem Validated_get_last_written {T : Type} (w h : number)
    (g : Validated.FastMap T) (cs : list (call T)) (x y : number) :
  Validated.constructor w h = Ok g → valid_coord w h x y →
  fst (Validated.Get (Validated_run g cs) x y) =
    Ok (last_written w h cs x y null).
Proof.
  intros Hg Hv.
  destruct (Validated_constructor_Ok w h g Hg) as (_ & _ & Hw & Hh & _).
  destruct (Validated_run_slot cs g x y) as (Ew & Eh & Es).
  { by rewrite Hw, Hh. }
  rewrite Hw in Ew, Es. rewrite Hh in Eh, Es.
  rewrite (Validated_constructor_slot w h g x y Hg Hv) in Es.
  unfold Validated.Get.
  rewrite (proj2 (Validated_check_true _ x y)) by by rewrite Ew, Eh.
  simpl. unfold Validated.convert2DTo1D. by rewrite Ew, Es.
Qed.

Lemma Validated_get_last_written_witness :
  fst (Validated.Get
         (Validated_run validated33
            [CallSet (Qc_of_Z 1) (Qc_of_Z 1) (val 10%nat);
             CallSet (Qc_of_Z 3) (Qc_of_Z 1) (val 30%nat);
             CallSet (Qc_of_Z 1) (Qc_of_Z 1) (val 20%nat);
             CallSet (Qc_of_Z 2) (Qc_of_Z 2) (val 40%nat)])
         (Qc_of_Z 1) (Qc_of_Z 1)) = Ok (val 20%nat).
Proof.
  apply (Validated_get_last_written (Qc_of_Z 3) (Qc_of_Z 3) validated33
           [CallSet (Qc_of_Z 1) (Qc_of_Z 1) (val 10%nat);
            CallSet (Qc_of_Z 3) (Qc_of_Z 1) (val 30%nat);
            CallSet (Qc_of_Z 1) (Qc_of_Z 1) (val 20%nat);
            CallSet (Qc_of_Z 2) (Qc_of_Z 2) (val 40%nat)]
           (Qc_of_Z 1) (Qc_of_Z 1)).
  - by vm_compute.
  - repeat split; by vm_compute.
Defined.

(** The same for [src/index.ts], where the calls must name integers. *)
Lemma Primary_step_slot {T : Type} (this : Primary.FastMap T) (c : call T)
    (x y : number) :
  let w := Primary.width this in
  let h := Primary.height this in
  integer_call c → valid_coord w h x y →
  Primary.width (Primary_step this c) = w ∧
  Primary.height (Primary_step this c) = h ∧
  array_get (Primary.map (Primary_step this c)) (y * w + x)%Qc =
    match c with
    | CallGet _ _ => array_get (Primary.map this) (y * w + x)%Qc
    | CallSet x0 y0 v =>
        if decide (valid_coord w h x0 y0 ∧ (x0, y0) = (x, y)) then v
        else array_get (Primary.map this) (y * w + x)%Qc
    end.
Proof.
  intros w h Hc Hv. destruct c as [x0 y0|x0 y0 v]; simpl.
  - by rewrite Primary_Get_state.
  - destruct Hc as [Hx0 Hy0]. unfold Primary.Set_.
    destruct (Primary.CheckIndicesAreValid this x0 y0) eqn:Hck; simpl.
    + apply Check_true in Hck as [Hxr Hyr]. fold w h in Hxr, Hyr.
      split; [done|]. split; [done|].
      unfold Primary.Convert2DTo1D. fold w.
      case_decide as Hk.
      * destruct Hk as [_ [= -> ->]]. by rewrite array_get_set_eq.
      * rewrite array_get_set_ne; [done|]. intros Heq.
        destruct Hv as (_ & Hy & Hx & _).
        destruct (index_inj w x0 y0 x y) as [-> ->]; try done.
        apply Hk. unfold valid_coord. done.
    + split; [done|]. split; [done|].
      rewrite decide_False; [done|]. intros [Hv0%valid_coord_Check _].
      congruence.
Qed.

Lemma Primary_run_slot {T : Type} (cs : list (call T))
    (this : Primary.FastMap T) (x y : number) :
  let w := Primary.width this in
  let h := Primary.height this in
  Forall integer_call cs → valid_coord w h x y →
  Primary.width (Primary_run this cs) = w ∧
  Primary.height (Primary_run this cs) = h ∧
  array_get (Primary.map (Primary_run this cs)) (y * w + x)%Qc =
    last_written w h cs x y (array_get (Primary.map this) (y * w + x)%Qc).
Proof.
  revert this. induction cs as [|c cs IH]; intros this w h Hcs Hv; [done|].
  apply Forall_cons in Hcs as [Hc Hcs].
  destruct (Primary_step_slot this c x y Hc Hv) as (Ew & Eh & Es).
  fold w h in Ew, Eh, Es.
  destruct (IH (Primary_step this c)) as (Ew' & Eh' & Es'); [done| |].
  { by rewrite Ew, Eh. }
  rewrite Ew in Ew', Es'. rewrite Eh in Eh', Es'. rewrite Es in Es'.
  unfold Primary_run in *. simpl. rewrite Ew', Eh', Es'.
  split; [done|]. split; [done|]. by destruct c.
Qed.

Lemma Primary_constructor_slot {T : Type} (w h : number)
    (g : Primary.FastMap T) (x y : number) :
  Primary.constructor w h = Ok g →
  isInteger w = true → isInteger h = true → valid_coord w h x y →
  array_get (Primary.map g) (y * w + x)%Qc = null.
Proof.
  intros Hg Hiw Hih Hv.
  destruct (Primary_constructor_Ok w h g Hg) as (_ & _ & Hlen).
  revert Hg Hlen. unfold Primary.constructor.
  destruct (array_new (w * h)%Qc) as [a|] eqn:Ha; [|done].
  apply array_new_Ok in Ha as (Hn & [H0 H1] & ->).
  intros [= <-]. simpl. intros Hlen.
  destruct (valid_as_index _ w h x y Hiw Hih Hlen) as [Hi Hlt]; [|done|].
  { unfold array_length, array_fill. simpl. rewrite !length_replicate. lia. }
  revert Hlt. unfold array_get, array_fill. simpl. rewrite Hi.
  rewrite length_replicate. intros Hlt. by rewrite lookup_replicate_2.
Qed.

(** X16 — [src/index.ts] behaves as a finite map as long as integers are
    used: on a grid built from integer dimensions, after any run of [Get]
    and [Set] calls with integer coordinates, [Get(x, y)] at a valid pair
    returns the value of the last accepted [Set] at that pair, and [null]
    when there was none. *)
Theorem Primary_get_last_written {T : Type} (w h : number)
    (g : Primary.FastMap T) (cs : list (call T)) (x y : number) :
  Primary.constructor w h = Ok g →
  isInteger w = true → isInteger h = true →
  Forall integer_call cs → valid_coord w h x y →
  Primary.Get (Primary_run g cs) x y =
    (Ok (last_written w h cs x y null), Primary_run g cs).
Proof.
  intros Hg Hiw Hih Hcs Hv.
  destruct (Primary_constructor_Ok w h g Hg) as (Hw & Hh & _).
  unfold Primary.Width, Primary.Height in Hw, Hh.
  destruct (Primary_run_slot cs g x y) as (Ew & Eh & Es); [done| |].
  { by rewrite Hw, Hh. }
  rewrite Hw in Ew, Es. rewrite Hh in Eh, Es.
  rewrite (Primary_constructor_slot w h g x y Hg Hiw Hih Hv) in Es.
  rewrite Get_checked.
  - unfold Primary.Convert2DTo1D. by rewrite Ew, Es.
  - apply valid_coord_Check. by rewrite Ew, Eh.
Qed.

Lemma Primary_get_last_written_witness :
  Primary.Get
    (Primary_run board33
       [CallSet (Qc_of_Z 1) (Qc_of_Z 1) (val 10%nat);
        CallGet (Qc_of_Z 5) (Qc_of_Z 5);
        CallSet (Qc_of_Z 1) (Qc_of_Z 1) null;
        CallSet (Qc_of_Z 0) (Qc_of_Z 3) (val 30%nat)])
    (Qc_of_Z 1) (Qc_of_Z 1) =
  (Ok null,
   Primary_run board33
     [CallSet (Qc_of_Z 1) (Qc_of_Z 1) (val 10%nat);
      CallGet (Qc_of_Z 5) (Qc_of_Z 5);
      CallSet (Qc_of_Z 1) (Qc_of_Z 1) null;
      CallSet (Qc_of_Z 0) (Qc_of_Z 3) (val 30%nat)]).
Proof.
  apply (Primary_get_last_written (Qc_of_Z 3) (Qc_of_Z 3) board33
           [CallSet (Qc_of_Z 1) (Qc_of_Z 1) (val 10%nat);
            CallGet (Qc_of_Z 5) (Qc_of_Z 5);
            CallSet (Qc_of_Z 1) (Qc_of_Z 1) null;
            CallSet (Qc_of_Z 0) (Qc_of_Z 3) (val 30%nat)]
           (Qc_of_Z 1) (Qc_of_Z 1)).
  - by vm_compute.
  - by vm_compute.
  - by vm_compute.
  - repeat constructor.
  - repeat split; by vm_compute.
Defined.
